(** * DVPNShareFHE: a shallow embedding of [contracts/dvpnFHE_Share.sol]

    The contract keeps encrypted bandwidth totals per batch, lets providers
    add ciphertexts to an open batch, and runs a request/callback handshake
    with the FHEVM decryption oracle.  Storage is a record of finite maps
    (a Solidity [mapping] read at an absent key yields the zero value),
    every external function is a computation in a small revert monad, and a
    transaction that reverts leaves storage as it was. *)

From Stdlib Require Import NArith List Strings.Byte Lia.
From stdpp Require Import base option numbers gmap.
Import ListNotations.

Local Open Scope N_scope.

(** ** Value types *)

Abbreviation uint256 := N (only parsing).
Abbreviation address := N (only parsing).
Abbreviation bytes32 := N (only parsing).
Abbreviation bytes4 := N (only parsing).
Abbreviation bytes := (list byte) (only parsing).

(** [euint32] is declared by the FHE library as a user-defined value type
    over [bytes32]: a handle.  [FHE.toBytes32] unwraps it. *)
Abbreviation euint32 := N (only parsing).

Definition FHE_toBytes32 (v : euint32) : bytes32 := v.

Definition UINT256_LIMIT : N := 2 ^ 256.

(** ** Errors and events *)

Inductive Error : Type :=
| NotOwner
| NotProvider
| Paused
| CooldownActive
| BatchClosedOrDoesNotExist
| InvalidParameter
| ReplayAttempt
| StateMismatch
| DecryptionFailed
| Panic (code : N)          (* compiler-inserted checks; 0x11 = overflow *)
| AbiDecodeRevert.          (* [abi.decode] on data that is too short *)

Module Ev.
Inductive Event : Type :=
| ProviderAdded (provider : address)
| ProviderRemoved (provider : address)
| Paused (account : address)
| Unpaused (account : address)
| CooldownSecondsChanged (oldCooldownSeconds newCooldownSeconds : uint256)
| BatchOpened (batchId : uint256)
| BatchClosed (batchId : uint256) (totalEncryptedBandwidth : uint256)
| BandwidthContributed (provider : address) (batchId : uint256)
                       (encryptedBandwidth : bytes32)
| DecryptionRequested (requestId batchId : uint256) (stateHash : bytes32)
| DecryptionCompleted (requestId batchId totalBandwidth : uint256).
End Ev.

Global Instance Error_eq_dec : EqDecision Error.
Proof. solve_decision. Defined.

(** ** The FHEVM library, as the contract consumes it

    The library and the coprocessor behind it are not part of the
    repository.  Each call into it may read and update the coprocessor's own
    state, which the contract cannot see. *)

Class FHEVM : Type := {
  coprocessor : Type;
  FHE_asEuint32 : coprocessor -> N -> euint32 * coprocessor;
  FHE_add : coprocessor -> euint32 -> euint32 -> euint32 * coprocessor;
  FHE_requestDecryption :
    coprocessor -> list euint32 -> bytes4 -> uint256 * coprocessor;
  FHE_checkSignatures : coprocessor -> uint256 -> bytes -> bytes -> bool;
  (** [keccak256(abi.encode(ctsBytes, addr))] *)
  keccak256_abi_encode : list bytes32 -> address -> bytes32;
}.

(** ** Structs and storage *)

Record DecryptionContext : Type := mkDecryptionContext {
  batchId : uint256;
  stateHash : bytes32;
  processed : bool;
}.

Record Batch : Type := mkBatch {
  exists_ : bool;
  closed : bool;
  totalEncryptedBandwidth : euint32;
}.

Definition zeroContext : DecryptionContext := mkDecryptionContext 0 0 false.
Definition zeroBatch : Batch := mkBatch false false 0.

(** Reading a Solidity mapping: absent keys read as the zero value. *)
Definition sload {V : Type} (zero : V) (m : gmap N V) (k : N) : V :=
  default zero (m !! k).

(** [abi.decode(data, (uint256))]: the first 32 bytes, big endian; reverts
    when fewer than 32 bytes are supplied. *)
Fixpoint be_uint (bs : bytes) (acc : N) : N :=
  match bs with
  | [] => acc
  | b :: rest => be_uint rest (acc * 256 + Byte.to_N b)
  end.

Definition abi_decode_uint256 (data : bytes) : option uint256 :=
  if (length data <? 32)%nat then None else Some (be_uint (take 32 data) 0).

(** The outcome of running contract code: a value, or a revert. *)
Inductive Result (A : Type) : Type :=
| Ok (a : A)
| Revert (e : Error).
Arguments Ok {A} a.
Arguments Revert {A} e.

(** The transaction context: [msg.sender] and [block.timestamp]. *)
Record Env : Type := mkEnv {
  msg_sender : address;
  block_timestamp : uint256;
}.

Section Contract.

Context `{FHEVM}.

(** [address(this)] and [this.myCallback.selector]. *)
Variable this : address.
Variable myCallback_selector : bytes4.

Record Storage : Type := mkStorage {
  isProvider : gmap N bool;
  batches : gmap N Batch;
  decryptionContexts : gmap N DecryptionContext;
  lastSubmissionTime : gmap N N;
  lastDecryptionRequestTime : gmap N N;
  owner : address;
  paused : bool;
  cooldownSeconds : uint256;
  fhevm : coprocessor;
}.

Definition set_isProvider (v : gmap N bool) (s : Storage) : Storage :=
  mkStorage v (batches s) (decryptionContexts s) (lastSubmissionTime s)
    (lastDecryptionRequestTime s) (owner s) (paused s) (cooldownSeconds s)
    (fhevm s).
Definition set_batches (v : gmap N Batch) (s : Storage) : Storage :=
  mkStorage (isProvider s) v (decryptionContexts s) (lastSubmissionTime s)
    (lastDecryptionRequestTime s) (owner s) (paused s) (cooldownSeconds s)
    (fhevm s).
Definition set_decryptionContexts (v : gmap N DecryptionContext)
    (s : Storage) : Storage :=
  mkStorage (isProvider s) (batches s) v (lastSubmissionTime s)
    (lastDecryptionRequestTime s) (owner s) (paused s) (cooldownSeconds s)
    (fhevm s).
Definition set_lastSubmissionTime (v : gmap N N) (s : Storage) : Storage :=
  mkStorage (isProvider s) (batches s) (decryptionContexts s) v
    (lastDecryptionRequestTime s) (owner s) (paused s) (cooldownSeconds s)
    (fhevm s).
Definition set_lastDecryptionRequestTime (v : gmap N N) (s : Storage)
    : Storage :=
  mkStorage (isProvider s) (batches s) (decryptionContexts s)
    (lastSubmissionTime s) v (owner s) (paused s) (cooldownSeconds s)
    (fhevm s).
Definition set_paused (v : bool) (s : Storage) : Storage :=
  mkStorage (isProvider s) (batches s) (decryptionContexts s)
    (lastSubmissionTime s) (lastDecryptionRequestTime s) (owner s) v
    (cooldownSeconds s) (fhevm s).
Definition set_cooldownSeconds (v : uint256) (s : Storage) : Storage :=
  mkStorage (isProvider s) (batches s) (decryptionContexts s)
    (lastSubmissionTime s) (lastDecryptionRequestTime s) (owner s)
    (paused s) v (fhevm s).
Definition set_fhevm (v : coprocessor) (s : Storage) : Storage :=
  mkStorage (isProvider s) (batches s) (decryptionContexts s)
    (lastSubmissionTime s) (lastDecryptionRequestTime s) (owner s)
    (paused s) (cooldownSeconds s) v.

(** Storage reads, as Solidity evaluates them. *)
Definition isProvider_of (s : Storage) (a : address) : bool :=
  sload false (isProvider s) a.
Definition batch_of (s : Storage) (id : uint256) : Batch :=
  sload zeroBatch (batches s) id.
Definition context_of (s : Storage) (id : uint256) : DecryptionContext :=
  sload zeroContext (decryptionContexts s) id.
Definition lastSubmissionTime_of (s : Storage) (a : address) : uint256 :=
  sload 0 (lastSubmissionTime s) a.
Definition lastDecryptionRequestTime_of (s : Storage) (a : address)
    : uint256 :=
  sload 0 (lastDecryptionRequestTime s) a.

(** ** The revert monad

    A computation runs on the storage and the log of events emitted so
    far; [Revert] carries neither, so nothing survives a revert. *)

Definition Tx (A : Type) : Type :=
  Storage * list Ev.Event -> Result (A * (Storage * list Ev.Event)).

Definition ret {A : Type} (a : A) : Tx A := fun st => Ok (a, st).

Definition bind {A B : Type} (m : Tx A) (k : A -> Tx B) : Tx B :=
  fun st =>
    match m st with
    | Ok (a, st') => k a st'
    | Revert e => Revert e
    end.

Definition revert {A : Type} (e : Error) : Tx A := fun _ => Revert e.

Definition read {A : Type} (f : Storage -> A) : Tx A :=
  fun st => Ok (f (fst st), st).

Definition write (f : Storage -> Storage) : Tx unit :=
  fun st => Ok (tt, (f (fst st), snd st)).

Definition emit (e : Ev.Event) : Tx unit :=
  fun st => Ok (tt, (fst st, snd st ++ [e])).

(** [if (c) revert E();] *)
Definition revert_if (c : bool) (e : Error) : Tx unit :=
  if c then revert e else ret tt.

(** A call into the FHE library: runs on the coprocessor state. *)
Definition fhe {A : Type} (f : coprocessor -> A * coprocessor) : Tx A :=
  fun st =>
    let '(a, c) := f (fhevm (fst st)) in
    Ok (a, (set_fhevm c (fst st), snd st)).

(** [a + b] on [uint256] under Solidity 0.8: overflow is [Panic(0x11)]. *)
Definition checked_add (a b : uint256) : Tx uint256 :=
  if UINT256_LIMIT <=? a + b then revert (Panic 17) else ret (a + b).

#[local] Instance Tx_ret : MRet Tx := @ret.
#[local] Instance Tx_bind : MBind Tx := fun A B k m => bind m k.

(** ** Modifiers *)

Definition onlyOwner {A : Type} (env : Env) (body : Tx A) : Tx A :=
  o ← read owner;
  revert_if (negb (msg_sender env =? o)) NotOwner;;
  body.

Definition onlyProvider {A : Type} (env : Env) (body : Tx A) : Tx A :=
  p ← read (fun s => isProvider_of s (msg_sender env));
  revert_if (negb p) NotProvider;;
  body.

Definition whenNotPaused {A : Type} (body : Tx A) : Tx A :=
  p ← read paused;
  revert_if p Paused;;
  body.

(** ** Internal functions *)

Definition _hashCiphertexts (cts : list euint32) : bytes32 :=
  keccak256_abi_encode (map FHE_toBytes32 cts) this.

Definition _batchExists (s : Storage) (id : uint256) : bool :=
  exists_ (batch_of s id).

(** ** The constructor and the external functions *)

Definition constructor (deployer : address) (c0 : coprocessor) : Storage :=
  mkStorage ∅ ∅ ∅ ∅ ∅ deployer false 60 c0.

Definition addProvider (env : Env) (provider : address) : Tx unit :=
  onlyOwner env (
    write (fun s => set_isProvider (<[provider := true]> (isProvider s)) s);;
    emit (Ev.ProviderAdded provider)).

Definition removeProvider (env : Env) (provider : address) : Tx unit :=
  onlyOwner env (
    write (fun s => set_isProvider (<[provider := false]> (isProvider s)) s);;
    emit (Ev.ProviderRemoved provider)).

Definition pause (env : Env) : Tx unit :=
  onlyOwner env (whenNotPaused (
    write (set_paused true);;
    emit (Ev.Paused (msg_sender env)))).

Definition unpause (env : Env) : Tx unit :=
  onlyOwner env (
    write (set_paused false);;
    emit (Ev.Unpaused (msg_sender env))).

Definition setCooldownSeconds (env : Env) (newCooldownSeconds : uint256)
    : Tx unit :=
  onlyOwner env (
    revert_if (newCooldownSeconds =? 0) InvalidParameter;;
    oldCooldownSeconds ← read cooldownSeconds;
    write (set_cooldownSeconds newCooldownSeconds);;
    emit (Ev.CooldownSecondsChanged oldCooldownSeconds newCooldownSeconds)).

Definition openBatch (env : Env) (id : uint256) : Tx unit :=
  onlyOwner env (whenNotPaused (
    b ← read (fun s => batch_of s id);
    revert_if (exists_ b) InvalidParameter;;
    zero ← fhe (fun c => FHE_asEuint32 c 0);
    write (fun s => set_batches (<[id := mkBatch true false zero]> (batches s)) s);;
    emit (Ev.BatchOpened id))).

Definition closeBatch (env : Env) (id : uint256) : Tx unit :=
  onlyOwner env (whenNotPaused (
    ex ← read (fun s => _batchExists s id);
    revert_if (negb ex) BatchClosedOrDoesNotExist;;
    b ← read (fun s => batch_of s id);
    revert_if (closed b) BatchClosedOrDoesNotExist;;
    write (fun s =>
      set_batches
        (<[id := mkBatch (exists_ b) true (totalEncryptedBandwidth b)]>
           (batches s)) s);;
    emit (Ev.BatchClosed id (FHE_toBytes32 (totalEncryptedBandwidth b))))).

Definition contributeBandwidth (env : Env) (id : uint256)
    (encryptedBandwidth : euint32) : Tx unit :=
  onlyProvider env (whenNotPaused (
    last ← read (fun s => lastSubmissionTime_of s (msg_sender env));
    cd ← read cooldownSeconds;
    earliest ← checked_add last cd;
    revert_if (block_timestamp env <? earliest) CooldownActive;;
    ex ← read (fun s => _batchExists s id);
    b ← read (fun s => batch_of s id);
    revert_if (negb ex || closed b) BatchClosedOrDoesNotExist;;
    write (fun s =>
      set_lastSubmissionTime
        (<[msg_sender env := block_timestamp env]> (lastSubmissionTime s)) s);;
    total ← fhe (fun c => FHE_add c (totalEncryptedBandwidth b) encryptedBandwidth);
    write (fun s =>
      set_batches
        (<[id := mkBatch (exists_ (batch_of s id)) (closed (batch_of s id)) total]>
           (batches s)) s);;
    emit (Ev.BandwidthContributed (msg_sender env) id
            (FHE_toBytes32 encryptedBandwidth)))).

Definition requestBatchDecryption (env : Env) (id : uint256) : Tx unit :=
  onlyOwner env (whenNotPaused (
    last ← read (fun s => lastDecryptionRequestTime_of s (msg_sender env));
    cd ← read cooldownSeconds;
    earliest ← checked_add last cd;
    revert_if (block_timestamp env <? earliest) CooldownActive;;
    ex ← read (fun s => _batchExists s id);
    b ← read (fun s => batch_of s id);
    revert_if (negb ex || negb (closed b)) BatchClosedOrDoesNotExist;;
    write (fun s =>
      set_lastDecryptionRequestTime
        (<[msg_sender env := block_timestamp env]>
           (lastDecryptionRequestTime s)) s);;
    let cts := [totalEncryptedBandwidth b] in
    let stateHash := _hashCiphertexts cts in
    requestId ← fhe (fun c => FHE_requestDecryption c cts myCallback_selector);
    write (fun s =>
      set_decryptionContexts
        (<[requestId := mkDecryptionContext id stateHash false]>
           (decryptionContexts s)) s);;
    emit (Ev.DecryptionRequested requestId id stateHash))).

(** [myCallback] is [public] and carries no modifier: [msg.sender] is not
    consulted. *)
Definition myCallback (env : Env) (requestId : uint256)
    (cleartexts proof : bytes) : Tx unit :=
  ctx ← read (fun s => context_of s requestId);
  revert_if (processed ctx) ReplayAttempt;;
  acc ← read (fun s => totalEncryptedBandwidth (batch_of s (batchId ctx)));
  let currentCts := [acc] in
  let currentStateHash := _hashCiphertexts currentCts in
  revert_if (negb (currentStateHash =? stateHash ctx)) StateMismatch;;
  valid ← read (fun s => FHE_checkSignatures (fhevm s) requestId cleartexts proof);
  revert_if (negb valid) DecryptionFailed;;
  match abi_decode_uint256 cleartexts with
  | None => revert AbiDecodeRevert
  | Some totalBandwidth =>
      write (fun s =>
        set_decryptionContexts
          (<[requestId := mkDecryptionContext (batchId ctx) (stateHash ctx) true]>
             (decryptionContexts s)) s);;
      emit (Ev.DecryptionCompleted requestId (batchId ctx) totalBandwidth)
  end.

(** ** Transactions *)

Inductive Call : Type :=
| AddProvider (provider : address)
| RemoveProvider (provider : address)
| Pause
| Unpause
| SetCooldownSeconds (newCooldownSeconds : uint256)
| OpenBatch (id : uint256)
| CloseBatch (id : uint256)
| ContributeBandwidth (id : uint256) (encryptedBandwidth : euint32)
| RequestBatchDecryption (id : uint256)
| MyCallback (requestId : uint256) (cleartexts proof : bytes).

Definition dispatch (env : Env) (c : Call) : Tx unit :=
  match c with
  | AddProvider p => addProvider env p
  | RemoveProvider p => removeProvider env p
  | Pause => pause env
  | Unpause => unpause env
  | SetCooldownSeconds n => setCooldownSeconds env n
  | OpenBatch id => openBatch env id
  | CloseBatch id => closeBatch env id
  | ContributeBandwidth id v => contributeBandwidth env id v
  | RequestBatchDecryption id => requestBatchDecryption env id
  | MyCallback r ct pf => myCallback env r ct pf
  end.

(** What a caller observes: the events of a successful call, or the error. *)
Inductive Receipt : Type :=
| Succeeded (log : list Ev.Event)
| Reverted (e : Error).

(** One transaction: a revert rolls the storage back. *)
Definition transact (env : Env) (c : Call) (s : Storage) : Storage * Receipt :=
  match dispatch env c (s, []) with
  | Ok (_, (s', log)) => (s', Succeeded log)
  | Revert e => (s, Reverted e)
  end.

Definition next (env : Env) (c : Call) (s : Storage) : Storage :=
  fst (transact env c s).

Definition receipt (env : Env) (c : Call) (s : Storage) : Receipt :=
  snd (transact env c s).

(** Running a list of transactions in order. *)
Fixpoint run (txs : list (Env * Call)) (s : Storage) : Storage :=
  match txs with
  | [] => s
  | (env, c) :: rest => run rest (next env c s)
  end.

(** Storages the contract can be in: after deployment and any number of
    transactions. *)
Inductive reachable : Storage -> Prop :=
| reachable_deployed (deployer : address) (c0 : coprocessor) :
    reachable (constructor deployer c0)
| reachable_next (env : Env) (c : Call) (s : Storage) :
    reachable s -> reachable (next env c s).

End Contract.

Arguments Storage {_}.
Arguments reachable {_} this myCallback_selector s.

(** ** A small FHEVM instance for running the contract

    Handles are the plaintexts themselves shifted by one (so that no live
    handle is the zero handle), the oracle numbers its requests from zero,
    a proof is accepted when it repeats the cleartext, and the digest is a
    polynomial fold that is never zero. *)

Definition demo_keccak (words : list bytes32) (addr : address) : bytes32 :=
  fold_left (fun h w => (h * 1000003 + w + 1) mod (UINT256_LIMIT - 1))
            words (addr mod (UINT256_LIMIT - 1)) + 1.

Definition demo_checkSignatures (c : N) (requestId : uint256)
    (cleartexts proof : bytes) : bool :=
  bool_decide (map Byte.to_N proof = map Byte.to_N cleartexts).

#[local] Instance demoFHEVM : FHEVM := {|
  coprocessor := N;
  FHE_asEuint32 c n := (n + 1, c);
  FHE_add c a b := ((a + b - 1) mod UINT256_LIMIT, c);
  FHE_requestDecryption c cts sel := (c, c + 1);
  FHE_checkSignatures := demo_checkSignatures;
  keccak256_abi_encode := demo_keccak;
|}.

Definition demo_this : address := 4096.
Definition demo_selector : bytes4 := 1.

(** The cleartext 25 as a 32-byte big-endian word. *)
Definition cleartext25 : bytes := repeat x00 31 ++ [x19].

(** Owner 1 deploys and, from time 10 on, admits providers 2 and 3 and
    opens batch 7.  Provider 2 contributes the handle of 10 at time 100,
    provider 3 the handle of 15 at time 101.  The owner closes the batch at
    time 110 and asks for its decryption at time 120; the oracle answers
    with request id 0.  At time 130 account 999 delivers the cleartext 25
    with an accepted proof. *)
Definition demo_deployed : Storage := constructor 1 0.

Definition demo_setup : list (Env * Call) :=
  [ (mkEnv 1 10, AddProvider 2);
    (mkEnv 1 11, AddProvider 3);
    (mkEnv 1 12, OpenBatch 7) ].

Definition demo_ready : Storage :=
  run demo_this demo_selector demo_setup demo_deployed.

Definition demo_first : Storage :=
  next demo_this demo_selector (mkEnv 2 100) (ContributeBandwidth 7 11)
       demo_ready.

Definition demo_open : Storage :=
  next demo_this demo_selector (mkEnv 3 101) (ContributeBandwidth 7 16)
       demo_first.

Definition demo_closed : Storage :=
  next demo_this demo_selector (mkEnv 1 110) (CloseBatch 7) demo_open.

Definition demo_requested : Storage :=
  next demo_this demo_selector (mkEnv 1 120) (RequestBatchDecryption 7)
       demo_closed.

Definition demo_processed : Storage :=
  next demo_this demo_selector (mkEnv 999 130)
       (MyCallback 0 cleartext25 cleartext25) demo_requested.

(** Later traffic: the same callback again from two accounts, and a second
    decryption request (which the oracle numbers 1). *)
Definition demo_later : list (Env * Call) :=
  [ (mkEnv 999 140, MyCallback 0 cleartext25 cleartext25);
    (mkEnv 1 200, RequestBatchDecryption 7);
    (mkEnv 1 210, MyCallback 0 cleartext25 cleartext25) ].

(** The owner widens the window to the largest [uint256] at time 105. *)
Definition demo_widened : Storage :=
  next demo_this demo_selector (mkEnv 1 105)
       (SetCooldownSeconds (UINT256_LIMIT - 1)) demo_first.

(** The requested storage with batch 7's accumulator replaced behind the
    contract's back. *)
Definition demo_tampered : Storage :=
  set_batches (<[7 := mkBatch true true 99]> (batches demo_requested))
              demo_requested.

Definition demo_paused : Storage :=
  next demo_this demo_selector (mkEnv 1 50) Pause demo_ready.

(** ** Vocabulary of the properties *)

Section Properties.

Context `{FHEVM}.
Variable this : address.
Variable myCallback_selector : bytes4.

#[local] Abbreviation transact := (transact this myCallback_selector).
#[local] Abbreviation next := (next this myCallback_selector).
#[local] Abbreviation receipt := (receipt this myCallback_selector).
#[local] Abbreviation run := (run this myCallback_selector).
#[local] Abbreviation reachable := (reachable this myCallback_selector).
#[local] Abbreviation _hashCiphertexts := (_hashCiphertexts this).

(** The commitment the callback recomputes for request [r]: the digest of
    the current accumulator of the batch the stored context names. *)
Definition currentStateHash (s : Storage) (r : uint256) : bytes32 :=
  _hashCiphertexts
    [totalEncryptedBandwidth (batch_of s (batchId (context_of s r)))].

(** A receipt shows that the oracle handed out request id [r]. *)
Definition is_request_for (r : uint256) (e : Ev.Event) : bool :=
  match e with
  | Ev.DecryptionRequested r' _ _ => r' =? r
  | _ => false
  end.

Definition issues (r : uint256) (rc : Receipt) : bool :=
  match rc with
  | Succeeded log => existsb (is_request_for r) log
  | Reverted _ => false
  end.

(** Along a run from [s], the oracle never hands out [r]. *)
Fixpoint never_issued (r : uint256) (txs : list (Env * Call)) (s : Storage)
    : Prop :=
  match txs with
  | [] => True
  | (env, c) :: rest =>
      issues r (receipt env c s) = false /\ never_issued r rest (next env c s)
  end.

(** The number of callbacks for [r] that succeed along a run from [s]. *)
Definition is_callback_for (r : uint256) (c : Call) : bool :=
  match c with
  | MyCallback r' _ _ => r' =? r
  | _ => false
  end.

Definition succeeded (rc : Receipt) : bool :=
  match rc with
  | Succeeded _ => true
  | Reverted _ => false
  end.

Fixpoint callback_successes (r : uint256) (txs : list (Env * Call))
    (s : Storage) : nat :=
  match txs with
  | [] => 0%nat
  | (env, c) :: rest =>
      ((if is_callback_for r c && succeeded (receipt env c s) then 1 else 0)
       + callback_successes r rest (next env c s))%nat
  end.

(** The error of a call that is inside the cooldown window whose end is
    [earliest = last + cooldownSeconds]: the sum is checked first. *)
Definition cooldown_error (earliest : N) : Error :=
  if UINT256_LIMIT <=? earliest then Panic 17 else CooldownActive.

(** What one transaction can do to one batch record: nothing, create it
    (only if absent), close it (only if present and open), or replace the
    accumulator (only if present and open). *)
Inductive batch_step (b : Batch) : Batch -> Prop :=
| batch_same : batch_step b b
| batch_opened (zero : euint32) :
    exists_ b = false -> batch_step b (mkBatch true false zero)
| batch_closed :
    exists_ b = true -> closed b = false ->
    batch_step b (mkBatch true true (totalEncryptedBandwidth b))
| batch_added (total : euint32) :
    exists_ b = true -> closed b = false ->
    batch_step b (mkBatch true false total).

(** The functions that carry the [onlyOwner] modifier. *)
Definition owner_only (c : Call) : bool :=
  match c with
  | ContributeBandwidth _ _ | MyCallback _ _ _ => false
  | _ => true
  end.

(** The batch a call names, if it names one it may write. *)
Definition target_batch (c : Call) : option uint256 :=
  match c with
  | OpenBatch id | CloseBatch id | ContributeBandwidth id _ => Some id
  | _ => None
  end.

(** Transactions whose [uint256] inputs are in range, as the ABI decoder
    and the EVM deliver them. *)
Definition well_typed (tx : Env * Call) : Prop :=
  block_timestamp tx.1 < UINT256_LIMIT
  /\ match tx.2 with
     | SetCooldownSeconds n => n < UINT256_LIMIT
     | _ => True
     end.

(** ** Unfolding the monad *)

Ltac run_tx :=
  unfold next, receipt, transact, dispatch,
    addProvider, removeProvider, pause, unpause, setCooldownSeconds,
    openBatch, closeBatch, contributeBandwidth, requestBatchDecryption,
    myCallback, onlyOwner, onlyProvider, whenNotPaused,
    mbind, Tx_bind, bind, mret, Tx_ret, read, write, emit, revert_if,
    checked_add, revert, ret, fhe, _batchExists, FHE_toBytes32;
  cbn [fst snd].

Ltac crunch :=
  repeat (cbn in *; simplify_eq; case_match);
  cbn in *; simplify_eq; cbn in *.

Ltac use_pairs :=
  repeat match goal with
         | E : ?x = (_, _) |- _ => rewrite E in *; clear E
         end.

Ltac flatten :=
  run_tx; crunch; use_pairs; cbn in *; try reflexivity; try congruence.

(** ** Each external function as a decision list

    The order of the tests is the order in which the source evaluates
    them: modifiers first, then the body from top to bottom. *)

Lemma transact_addProvider (env : Env) (p : address) (s : Storage) :
  transact env (AddProvider p) s =
  if negb (msg_sender env =? owner s) then (s, Reverted NotOwner)
  else (set_isProvider (<[p := true]> (isProvider s)) s,
        Succeeded [Ev.ProviderAdded p]).
Proof. flatten. Qed.

Lemma transact_removeProvider (env : Env) (p : address) (s : Storage) :
  transact env (RemoveProvider p) s =
  if negb (msg_sender env =? owner s) then (s, Reverted NotOwner)
  else (set_isProvider (<[p := false]> (isProvider s)) s,
        Succeeded [Ev.ProviderRemoved p]).
Proof. flatten. Qed.

Lemma transact_pause (env : Env) (s : Storage) :
  transact env Pause s =
  if negb (msg_sender env =? owner s) then (s, Reverted NotOwner)
  else if paused s then (s, Reverted Paused)
  else (set_paused true s, Succeeded [Ev.Paused (msg_sender env)]).
Proof. flatten. Qed.

Lemma transact_unpause (env : Env) (s : Storage) :
  transact env Unpause s =
  if negb (msg_sender env =? owner s) then (s, Reverted NotOwner)
  else (set_paused false s, Succeeded [Ev.Unpaused (msg_sender env)]).
Proof. flatten. Qed.

Lemma transact_setCooldownSeconds (env : Env) (n : uint256) (s : Storage) :
  transact env (SetCooldownSeconds n) s =
  if negb (msg_sender env =? owner s) then (s, Reverted NotOwner)
  else if n =? 0 then (s, Reverted InvalidParameter)
  else (set_cooldownSeconds n s,
        Succeeded [Ev.CooldownSecondsChanged (cooldownSeconds s) n]).
Proof. flatten. Qed.

Lemma transact_openBatch (env : Env) (id : uint256) (s : Storage) :
  transact env (OpenBatch id) s =
  if negb (msg_sender env =? owner s) then (s, Reverted NotOwner)
  else if paused s then (s, Reverted Paused)
  else if exists_ (batch_of s id) then (s, Reverted InvalidParameter)
  else
    let zero := FHE_asEuint32 (fhevm s) 0 in
    (set_batches (<[id := mkBatch true false zero.1]> (batches s))
       (set_fhevm zero.2 s),
     Succeeded [Ev.BatchOpened id]).
Proof. flatten. Qed.

Lemma transact_closeBatch (env : Env) (id : uint256) (s : Storage) :
  transact env (CloseBatch id) s =
  if negb (msg_sender env =? owner s) then (s, Reverted NotOwner)
  else if paused s then (s, Reverted Paused)
  else if negb (exists_ (batch_of s id))
  then (s, Reverted BatchClosedOrDoesNotExist)
  else if closed (batch_of s id) then (s, Reverted BatchClosedOrDoesNotExist)
  else
    let b := batch_of s id in
    (set_batches
       (<[id := mkBatch (exists_ b) true (totalEncryptedBandwidth b)]>
          (batches s)) s,
     Succeeded [Ev.BatchClosed id (totalEncryptedBandwidth b)]).
Proof. flatten. Qed.

Lemma transact_contributeBandwidth (env : Env) (id : uint256) (v : euint32)
    (s : Storage) :
  transact env (ContributeBandwidth id v) s =
  let last := lastSubmissionTime_of s (msg_sender env) in
  let b := batch_of s id in
  if negb (isProvider_of s (msg_sender env)) then (s, Reverted NotProvider)
  else if paused s then (s, Reverted Paused)
  else if UINT256_LIMIT <=? last + cooldownSeconds s
  then (s, Reverted (Panic 17))
  else if block_timestamp env <? last + cooldownSeconds s
  then (s, Reverted CooldownActive)
  else if negb (exists_ b) || closed b
  then (s, Reverted BatchClosedOrDoesNotExist)
  else
    let total := FHE_add (fhevm s) (totalEncryptedBandwidth b) v in
    (set_batches
       (<[id := mkBatch (exists_ b) (closed b) total.1]> (batches s))
       (set_fhevm total.2
          (set_lastSubmissionTime
             (<[msg_sender env := block_timestamp env]>
                (lastSubmissionTime s)) s)),
     Succeeded [Ev.BandwidthContributed (msg_sender env) id v]).
Proof. flatten. Qed.

Lemma transact_requestBatchDecryption (env : Env) (id : uint256)
    (s : Storage) :
  transact env (RequestBatchDecryption id) s =
  let last := lastDecryptionRequestTime_of s (msg_sender env) in
  let b := batch_of s id in
  if negb (msg_sender env =? owner s) then (s, Reverted NotOwner)
  else if paused s then (s, Reverted Paused)
  else if UINT256_LIMIT <=? last + cooldownSeconds s
  then (s, Reverted (Panic 17))
  else if block_timestamp env <? last + cooldownSeconds s
  then (s, Reverted CooldownActive)
  else if negb (exists_ b) || negb (closed b)
  then (s, Reverted BatchClosedOrDoesNotExist)
  else
    let cts := [totalEncryptedBandwidth b] in
    let req := FHE_requestDecryption (fhevm s) cts myCallback_selector in
    (set_decryptionContexts
       (<[req.1 := mkDecryptionContext id (_hashCiphertexts cts) false]>
          (decryptionContexts s))
       (set_fhevm req.2
          (set_lastDecryptionRequestTime
             (<[msg_sender env := block_timestamp env]>
                (lastDecryptionRequestTime s)) s)),
     Succeeded [Ev.DecryptionRequested req.1 id (_hashCiphertexts cts)]).
Proof. flatten. Qed.

Lemma transact_myCallback (env : Env) (r : uint256) (ct pf : bytes)
    (s : Storage) :
  transact env (MyCallback r ct pf) s =
  let ctx := context_of s r in
  if processed ctx then (s, Reverted ReplayAttempt)
  else if negb (currentStateHash s r =? stateHash ctx)
  then (s, Reverted StateMismatch)
  else if negb (FHE_checkSignatures (fhevm s) r ct pf)
  then (s, Reverted DecryptionFailed)
  else
    match abi_decode_uint256 ct with
    | None => (s, Reverted AbiDecodeRevert)
    | Some totalBandwidth =>
        (set_decryptionContexts
           (<[r := mkDecryptionContext (batchId ctx) (stateHash ctx) true]>
              (decryptionContexts s)) s,
         Succeeded [Ev.DecryptionCompleted r (batchId ctx) totalBandwidth])
    end.
Proof. unfold currentStateHash. flatten. Qed.

Lemma reachable_run (txs : list (Env * Call)) (s : Storage) :
  reachable s -> reachable (run txs s).
Proof.
  revert s. induction txs as [| [env c] rest IH]; intros s Hs; cbn.
  - exact Hs.
  - apply IH. apply reachable_next. exact Hs.
Qed.

(** Turning arithmetic facts into the values of the tests. *)
Lemma test_owner (env : Env) (s : Storage) :
  msg_sender env = owner s -> negb (msg_sender env =? owner s) = false.
Proof. intros ->. rewrite N.eqb_refl. reflexivity. Qed.

Lemma test_overflow (a b : N) :
  a + b < UINT256_LIMIT -> (UINT256_LIMIT <=? a + b) = false.
Proof. intros Hlt. apply N.leb_gt. exact Hlt. Qed.

Lemma test_early (t e : N) : t < e -> (t <? e) = true.
Proof. intros Hlt. apply N.ltb_lt. exact Hlt. Qed.

Lemma test_elapsed (t e : N) : e <= t -> (t <? e) = false.
Proof. intros Hle. apply N.ltb_ge. exact Hle. Qed.

Lemma sload_absent {V : Type} (zero : V) (m : gmap N V) (k : N) :
  m !! k = None -> sload zero m k = zero.
Proof. unfold sload. intros ->. reflexivity. Qed.

(** ** The decryption callback *)

Lemma myCallback_replay (s : Storage) (env : Env) (r : uint256)
    (ct pf : bytes) :
  processed (context_of s r) = true ->
  transact env (MyCallback r ct pf) s = (s, Reverted ReplayAttempt).
Proof.
  intros Hp. rewrite transact_myCallback. cbn. rewrite Hp. reflexivity.
Qed.

(** C2: a callback for a pending request whose recomputed commitment
    differs from the stored one reverts with [StateMismatch]; the storage
    is unchanged (the request stays pending) and no event is emitted. *)
Theorem myCallback_state_mismatch (s : Storage) (env : Env) (r : uint256)
    (ct pf : bytes) :
  processed (context_of s r) = false ->
  currentStateHash s r <> stateHash (context_of s r) ->
  transact env (MyCallback r ct pf) s = (s, Reverted StateMismatch)
  /\ processed (context_of (next env (MyCallback r ct pf) s) r) = false
  /\ succeeded (receipt env (MyCallback r ct pf) s) = false.
Proof.
  intros Hp Hne.
  assert (E : transact env (MyCallback r ct pf) s
              = (s, Reverted StateMismatch)).
  { rewrite transact_myCallback. cbn. rewrite Hp.
    apply N.eqb_neq in Hne. rewrite Hne. reflexivity. }
  unfold next, receipt.
  rewrite E. cbn. auto.
Qed.

(** C3 (as the code has it): an absent context reads as a pending request
    for batch 0 with a zero commitment, so a callback for an unknown
    request id never reverts with [ReplayAttempt]; it reverts with
    [StateMismatch] as soon as the digest of batch 0's accumulator is not
    the zero word. *)
Theorem myCallback_unknown_request (s : Storage) (env : Env) (r : uint256)
    (ct pf : bytes) :
  decryptionContexts s !! r = None ->
  receipt env (MyCallback r ct pf) s <> Reverted ReplayAttempt
  /\ (_hashCiphertexts [totalEncryptedBandwidth (batch_of s 0)] <> 0 ->
      transact env (MyCallback r ct pf) s = (s, Reverted StateMismatch)).
Proof.
  intros Hnone.
  assert (Hctx : context_of s r = zeroContext)
    by (apply sload_absent; exact Hnone).
  split.
  - unfold receipt. rewrite transact_myCallback.
    cbn. rewrite Hctx. cbn.
    repeat case_match; cbn; congruence.
  - intros Hne.
    apply (myCallback_state_mismatch s env r ct pf).
    + rewrite Hctx. reflexivity.
    + unfold currentStateHash. rewrite Hctx. cbn. exact Hne.
Qed.

(** C4 (as the code has it): the callback does not look at its caller, so
    its outcome is the same for every [msg.sender]; what it does reject is
    a cleartext whose proof [FHE.checkSignatures] refuses. *)
Theorem myCallback_any_caller (s : Storage) (env env' : Env) (r : uint256)
    (ct pf : bytes) :
  transact env (MyCallback r ct pf) s = transact env' (MyCallback r ct pf) s
  /\ (FHE_checkSignatures (fhevm s) r ct pf = false ->
      exists e, transact env (MyCallback r ct pf) s = (s, Reverted e)).
Proof.
  split.
  - rewrite !transact_myCallback. reflexivity.
  - intros Hbad. rewrite transact_myCallback. cbn. rewrite Hbad. cbn.
    repeat case_match; eauto.
Qed.

(** ** Batches *)

(** C5 (as the code has it): a contribution to a batch that is closed or
    does not exist always reverts, so the accumulator (and the rest of the
    storage) is unchanged; the error is [BatchClosedOrDoesNotExist] once
    the caller has passed the provider, pause and cooldown checks, which
    come first. *)
Theorem contribute_unavailable_batch (s : Storage) (env : Env)
    (id : uint256) (v : euint32) :
  _batchExists s id = false \/ closed (batch_of s id) = true ->
  (exists e, transact env (ContributeBandwidth id v) s = (s, Reverted e))
  /\ (isProvider_of s (msg_sender env) = true ->
      paused s = false ->
      lastSubmissionTime_of s (msg_sender env) + cooldownSeconds s
        <= block_timestamp env ->
      block_timestamp env < UINT256_LIMIT ->
      transact env (ContributeBandwidth id v) s
      = (s, Reverted BatchClosedOrDoesNotExist)).
Proof.
  intros Hgone.
  assert (Htest : negb (exists_ (batch_of s id)) || closed (batch_of s id)
                  = true).
  { unfold _batchExists in Hgone.
    destruct Hgone as [-> | ->]; [reflexivity | apply orb_true_r]. }
  rewrite transact_contributeBandwidth. cbn. rewrite Htest. split.
  - repeat case_match; eauto.
  - intros Hprov Hrun Hwait Hnow.
    rewrite Hprov, Hrun. cbn.
    rewrite test_overflow by lia.
    rewrite test_elapsed by exact Hwait.
    reflexivity.
Qed.

(** ** Configuration *)

(** Rewriting a transaction with the decision list of its function. *)
Ltac by_cases c :=
  destruct c; unfold next, receipt;
  [ rewrite transact_addProvider
  | rewrite transact_removeProvider
  | rewrite transact_pause
  | rewrite transact_unpause
  | rewrite transact_setCooldownSeconds
  | rewrite transact_openBatch
  | rewrite transact_closeBatch
  | rewrite transact_contributeBandwidth
  | rewrite transact_requestBatchDecryption
  | rewrite transact_myCallback ];
  cbn.

Lemma cooldownSeconds_next (env : Env) (c : Call) (s : Storage) :
  0 < cooldownSeconds s -> 0 < cooldownSeconds (next env c s).
Proof.
  intros Hpos. by_cases c; repeat case_match; cbn; try exact Hpos.
  match goal with
  | E : (_ =? 0) = false |- _ => apply N.eqb_neq in E; lia
  end.
Qed.

Lemma cooldownSeconds_positive (s : Storage) :
  reachable s -> 0 < cooldownSeconds s.
Proof.
  induction 1 as [deployer c0 | env c s _ IH].
  - cbn. lia.
  - apply cooldownSeconds_next. exact IH.
Qed.

(** C8: the owner's [setCooldownSeconds(0)] reverts with
    [InvalidParameter]; whoever sends it, the stored window is unchanged;
    and in every reachable storage the window is positive. *)
Theorem setCooldownSeconds_zero (s : Storage) (env : Env) :
  (msg_sender env = owner s ->
   transact env (SetCooldownSeconds 0) s = (s, Reverted InvalidParameter))
  /\ cooldownSeconds (next env (SetCooldownSeconds 0) s) = cooldownSeconds s
  /\ (reachable s ->
      0 < cooldownSeconds s
      /\ forall env' c, 0 < cooldownSeconds (next env' c s)).
Proof.
  split; [|split].
  - intros Hown. rewrite transact_setCooldownSeconds.
    rewrite test_owner by exact Hown. reflexivity.
  - unfold next. rewrite transact_setCooldownSeconds.
    repeat case_match; cbn in *; congruence.
  - intros Hreach. split.
    + apply cooldownSeconds_positive. exact Hreach.
    + intros env' c. apply cooldownSeconds_next.
      apply cooldownSeconds_positive. exact Hreach.
Qed.

(** C9: while the contract is paused the owner can still add and remove
    providers, change the cooldown window (to a non-zero value) and
    unpause; [pause], [openBatch], [closeBatch], [requestBatchDecryption]
    and a provider's [contributeBandwidth] revert with [Paused]; the
    callback, the one remaining function, answers as it would unpaused. *)
Theorem paused_owner_operations (s : Storage) (env : Env) :
  msg_sender env = owner s ->
  paused s = true ->
  (forall p,
     transact env (AddProvider p) s
     = (set_isProvider (<[p := true]> (isProvider s)) s,
        Succeeded [Ev.ProviderAdded p]))
  /\ (forall p,
       transact env (RemoveProvider p) s
       = (set_isProvider (<[p := false]> (isProvider s)) s,
          Succeeded [Ev.ProviderRemoved p]))
  /\ (forall n, n <> 0 ->
       transact env (SetCooldownSeconds n) s
       = (set_cooldownSeconds n s,
          Succeeded [Ev.CooldownSecondsChanged (cooldownSeconds s) n]))
  /\ transact env Unpause s
     = (set_paused false s, Succeeded [Ev.Unpaused (msg_sender env)])
  /\ transact env Pause s = (s, Reverted Paused)
  /\ (forall id, transact env (OpenBatch id) s = (s, Reverted Paused))
  /\ (forall id, transact env (CloseBatch id) s = (s, Reverted Paused))
  /\ (forall id,
       transact env (RequestBatchDecryption id) s = (s, Reverted Paused))
  /\ (forall env' id v,
       isProvider_of s (msg_sender env') = true ->
       transact env' (ContributeBandwidth id v) s = (s, Reverted Paused))
  /\ (forall env' r ct pf,
       receipt env' (MyCallback r ct pf) s
       = receipt env' (MyCallback r ct pf) (set_paused false s)).
Proof.
  intros Hown Hpaused.
  pose proof (test_owner env s Hown) as Htest.
  repeat split.
  - intros p. rewrite transact_addProvider, Htest. reflexivity.
  - intros p. rewrite transact_removeProvider, Htest. reflexivity.
  - intros n Hn. rewrite transact_setCooldownSeconds, Htest.
    apply N.eqb_neq in Hn. rewrite Hn. reflexivity.
  - rewrite transact_unpause, Htest. reflexivity.
  - rewrite transact_pause, Htest, Hpaused. reflexivity.
  - intros id. rewrite transact_openBatch, Htest, Hpaused. reflexivity.
  - intros id. rewrite transact_closeBatch, Htest, Hpaused. reflexivity.
  - intros id. rewrite transact_requestBatchDecryption. cbn.
    rewrite Htest, Hpaused. reflexivity.
  - intros env' id v Hprov. rewrite transact_contributeBandwidth. cbn.
    rewrite Hprov, Hpaused. reflexivity.
  - intros env' r ct pf. unfold receipt.
    rewrite !transact_myCallback.
    unfold currentStateHash, context_of, batch_of. cbn.
    repeat case_match; reflexivity.
Qed.

(** ** The cooldown *)

(** C10: for a caller with no recorded time the window is measured from
    zero, so a provider's first contribution and the owner's first
    decryption request revert with [CooldownActive] whenever
    [block.timestamp < cooldownSeconds]. *)
Theorem first_call_cooldown (s : Storage) (env : Env) :
  paused s = false ->
  cooldownSeconds s < UINT256_LIMIT ->
  block_timestamp env < cooldownSeconds s ->
  (forall id v,
     isProvider_of s (msg_sender env) = true ->
     lastSubmissionTime s !! msg_sender env = None ->
     transact env (ContributeBandwidth id v) s = (s, Reverted CooldownActive))
  /\ (forall id,
       msg_sender env = owner s ->
       lastDecryptionRequestTime s !! msg_sender env = None ->
       transact env (RequestBatchDecryption id) s
       = (s, Reverted CooldownActive)).
Proof.
  intros Hrun Hcd Hnow. split.
  - intros id v Hprov Hnone.
    rewrite transact_contributeBandwidth. cbn.
    rewrite Hprov, Hrun. cbn.
    unfold lastSubmissionTime_of. rewrite (sload_absent _ _ _ Hnone).
    rewrite test_overflow, test_early by lia.
    reflexivity.
  - intros id Hown Hnone.
    rewrite transact_requestBatchDecryption. cbn.
    rewrite test_owner, Hrun by exact Hown.
    unfold lastDecryptionRequestTime_of. rewrite (sload_absent _ _ _ Hnone).
    rewrite test_overflow, test_early by lia.
    reflexivity.
Qed.

(** ** Batch invariants *)

Lemma sload_insert {V : Type} (zero : V) (m : gmap N V) (k k' : N) (v : V) :
  sload zero (<[k := v]> m) k' = if decide (k = k') then v else sload zero m k'.
Proof.
  unfold sload. rewrite lookup_insert. case_decide; reflexivity.
Qed.

Lemma batch_of_next (env : Env) (c : Call) (s : Storage) (id : uint256) :
  batch_step (batch_of s id) (batch_of (next env c s) id).
Proof.
  by_cases c; repeat case_match; cbn; try apply batch_same;
    unfold batch_of in *; cbn; rewrite sload_insert;
    case_decide; subst; try apply batch_same.
  - apply batch_opened. assumption.
  - match goal with
    | E : negb ?e = false |- _ => apply negb_false_iff in E; rewrite E
    end.
    apply batch_closed; assumption.
  - match goal with
    | E : negb ?e || ?c = false |- _ =>
        apply orb_false_iff in E; destruct E as [E1 E2];
        apply negb_false_iff in E1; rewrite E1, E2
    end.
    apply batch_added; assumption.
Qed.

Lemma closed_exists_next (env : Env) (c : Call) (s : Storage) (id : uint256) :
  (closed (batch_of s id) = true -> exists_ (batch_of s id) = true) ->
  closed (batch_of (next env c s) id) = true ->
  exists_ (batch_of (next env c s) id) = true.
Proof.
  intros Hinv. destruct (batch_of_next env c s id); cbn; auto.
Qed.

Lemma closed_exists (s : Storage) (id : uint256) :
  reachable s ->
  closed (batch_of s id) = true -> exists_ (batch_of s id) = true.
Proof.
  induction 1 as [deployer c0 | env c s _ IH].
  - cbn. discriminate.
  - apply closed_exists_next. exact IH.
Qed.

(** C6: along every transaction from a reachable storage, a batch that
    exists keeps existing and [openBatch] on its id reverts (with
    [InvalidParameter] when sent by the owner while not paused); a closed
    batch stays closed; and the accumulator of a closed batch is not
    changed. *)
Theorem batch_invariants (s : Storage) (env : Env) (c : Call)
    (id : uint256) :
  reachable s ->
  (exists_ (batch_of s id) = true ->
   exists_ (batch_of (next env c s) id) = true
   /\ (exists e, transact env (OpenBatch id) s = (s, Reverted e))
   /\ (msg_sender env = owner s -> paused s = false ->
       transact env (OpenBatch id) s = (s, Reverted InvalidParameter)))
  /\ (closed (batch_of s id) = true ->
      closed (batch_of (next env c s) id) = true)
  /\ (closed (batch_of s id) = true ->
      totalEncryptedBandwidth (batch_of (next env c s) id)
      = totalEncryptedBandwidth (batch_of s id)).
Proof.
  intros Hreach.
  pose proof (closed_exists s id Hreach) as Hce.
  pose proof (batch_of_next env c s id) as Hstep.
  split; [|split].
  - intros Hex. split; [|split].
    + destruct Hstep; cbn; auto.
    + rewrite transact_openBatch, Hex. repeat case_match; eauto.
    + intros Hown Hrun.
      rewrite transact_openBatch, test_owner, Hrun, Hex by exact Hown.
      reflexivity.
  - intros Hcl. specialize (Hce Hcl).
    destruct Hstep; cbn; auto; congruence.
  - intros Hcl. specialize (Hce Hcl).
    destruct Hstep; cbn; auto; congruence.
Qed.

(** ** Replay protection *)

(** A successful callback takes its request from pending to processed. *)
Lemma myCallback_success (s s1 : Storage) (env : Env) (r : uint256)
    (ct pf : bytes) (log : list Ev.Event) :
  transact env (MyCallback r ct pf) s = (s1, Succeeded log) ->
  processed (context_of s r) = false /\ processed (context_of s1 r) = true.
Proof.
  rewrite transact_myCallback. cbn. intros Hrun.
  repeat case_match; simplify_eq. split; [reflexivity|].
  unfold context_of. cbn. rewrite sload_insert.
  case_decide; [reflexivity | congruence].
Qed.

(** The processed flag survives every transaction in which the oracle
    does not hand the same id out again. *)
Lemma processed_next (env : Env) (c : Call) (s : Storage) (r : uint256) :
  processed (context_of s r) = true ->
  issues r (receipt env c s) = false ->
  processed (context_of (next env c s) r) = true.
Proof.
  intros Hp. by_cases c; repeat case_match; cbn; intros Hfresh;
    try exact Hp; unfold context_of in *; cbn; rewrite sload_insert;
    case_decide; subst; try exact Hp; try reflexivity.
  rewrite N.eqb_refl in Hfresh. discriminate.
Qed.

Lemma processed_run (r : uint256) (txs : list (Env * Call)) (s : Storage) :
  processed (context_of s r) = true ->
  never_issued r txs s ->
  callback_successes r txs s = 0%nat
  /\ processed (context_of (run txs s) r) = true.
Proof.
  revert s. induction txs as [| [env c] rest IH]; intros s Hp Hfresh.
  - split; [reflexivity | exact Hp].
  - destruct Hfresh as [Hhead Hrest]. cbn.
    pose proof (processed_next env c s r Hp Hhead) as Hp'.
    destruct (IH _ Hp' Hrest) as [Hzero Hlast].
    split; [|exact Hlast].
    rewrite Hzero.
    destruct c; cbn; try reflexivity.
    destruct (N.eqb_spec requestId r) as [-> |]; cbn; [|reflexivity].
    unfold receipt.
    rewrite myCallback_replay by exact Hp. reflexivity.
Qed.

Lemma callback_successes_le_1 (r : uint256) (txs : list (Env * Call))
    (s : Storage) :
  never_issued r txs s -> (callback_successes r txs s <= 1)%nat.
Proof.
  revert s. induction txs as [| [env c] rest IH]; intros s Hfresh.
  - cbn. lia.
  - destruct Hfresh as [Hhead Hrest]. cbn.
    destruct (is_callback_for r c && succeeded (receipt env c s)) eqn:Hhit.
    + apply andb_true_iff in Hhit. destruct Hhit as [Hcb Hok].
      destruct c; cbn in Hcb; try discriminate.
      apply N.eqb_eq in Hcb. subst requestId.
      unfold receipt in Hok.
      destruct (transact env (MyCallback r cleartexts proof) s)
        as [s1 [log | e]] eqn:Hrun; cbn in Hok; try discriminate.
      destruct (myCallback_success _ _ _ _ _ _ _ Hrun) as [_ Hp].
      assert (Hnext : next env (MyCallback r cleartexts proof) s = s1).
      { unfold next. rewrite Hrun. reflexivity. }
      rewrite Hnext in *.
      destruct (processed_run r rest s1 Hp Hrest) as [-> _]. lia.
    + specialize (IH _ Hrest). lia.
Qed.

(** C1: along any run in which the oracle does not hand out [r], at most
    one callback for [r] succeeds; and once a callback for [r] has
    succeeded -- taking the request from pending to processed -- then after
    any further run in which the oracle does not hand [r] out again, no
    callback for [r] has succeeded and every callback for [r], whatever its
    caller, cleartext and proof, reverts with [ReplayAttempt] and leaves
    the storage as it is. *)
Theorem callback_at_most_once (r : uint256) :
  (forall s txs,
     never_issued r txs s -> (callback_successes r txs s <= 1)%nat)
  /\ (forall s s1 env ct pf log txs,
       transact env (MyCallback r ct pf) s = (s1, Succeeded log) ->
       never_issued r txs s1 ->
       processed (context_of s r) = false
       /\ processed (context_of s1 r) = true
       /\ callback_successes r txs s1 = 0%nat
       /\ forall env' ct' pf',
            transact env' (MyCallback r ct' pf') (run txs s1)
            = (run txs s1, Reverted ReplayAttempt)).
Proof.
  split.
  - intros s txs. apply callback_successes_le_1.
  - intros s s1 env ct pf log txs Hrun Hfresh.
    destruct (myCallback_success _ _ _ _ _ _ _ Hrun) as [Hpending Hdone].
    destruct (processed_run r txs s1 Hdone Hfresh) as [Hzero Hlast].
    repeat split; try assumption.
    intros env' ct' pf'. apply myCallback_replay. exact Hlast.
Qed.

(** ** The cooldown between two calls *)

(** A successful contribution records its time for the caller, who is
    then a provider of an unpaused contract. *)
Lemma contribute_records (s0 s1 : Storage) (env : Env) (id : uint256)
    (v : euint32) (log : list Ev.Event) :
  transact env (ContributeBandwidth id v) s0 = (s1, Succeeded log) ->
  lastSubmissionTime_of s1 (msg_sender env) = block_timestamp env
  /\ isProvider_of s1 (msg_sender env) = true
  /\ paused s1 = false
  /\ cooldownSeconds s1 = cooldownSeconds s0.
Proof.
  rewrite transact_contributeBandwidth. cbn. intros Hrun.
  repeat case_match; simplify_eq.
  unfold lastSubmissionTime_of, isProvider_of in *. cbn.
  rewrite sload_insert. case_decide; [|congruence].
  repeat split; try assumption.
  match goal with
  | E : negb ?p = false |- _ => apply negb_false_iff in E; exact E
  end.
Qed.

Lemma request_records (s0 s1 : Storage) (env : Env) (id : uint256)
    (log : list Ev.Event) :
  transact env (RequestBatchDecryption id) s0 = (s1, Succeeded log) ->
  lastDecryptionRequestTime_of s1 (msg_sender env) = block_timestamp env
  /\ msg_sender env = owner s1
  /\ paused s1 = false
  /\ cooldownSeconds s1 = cooldownSeconds s0.
Proof.
  rewrite transact_requestBatchDecryption. cbn. intros Hrun.
  repeat case_match; simplify_eq.
  unfold lastDecryptionRequestTime_of in *. cbn.
  rewrite sload_insert. case_decide; [|congruence].
  repeat split; try assumption.
  match goal with
  | E : negb (_ =? _) = false |- _ =>
      apply negb_false_iff, N.eqb_eq in E; exact E
  end.
Qed.

(** The gate of [contributeBandwidth], for a provider of an unpaused
    contract whose last recorded submission was at [t1]. *)
Lemma contribute_gate (s : Storage) (env : Env) (id : uint256) (v : euint32)
    (t1 : uint256) :
  isProvider_of s (msg_sender env) = true ->
  paused s = false ->
  lastSubmissionTime_of s (msg_sender env) = t1 ->
  (block_timestamp env < t1 + cooldownSeconds s ->
   transact env (ContributeBandwidth id v) s
   = (s, Reverted (cooldown_error (t1 + cooldownSeconds s))))
  /\ (t1 + cooldownSeconds s <= block_timestamp env ->
      block_timestamp env < UINT256_LIMIT ->
      exists_ (batch_of s id) = true ->
      closed (batch_of s id) = false ->
      succeeded (receipt env (ContributeBandwidth id v) s) = true
      /\ lastSubmissionTime_of (next env (ContributeBandwidth id v) s)
           (msg_sender env) = block_timestamp env).
Proof.
  intros Hprov Hrun Hlast.
  unfold receipt, next.
  rewrite transact_contributeBandwidth. cbn.
  rewrite Hprov, Hrun, Hlast. cbn. unfold cooldown_error. split.
  - intros Hearly. destruct (UINT256_LIMIT <=? t1 + cooldownSeconds s);
      [reflexivity|].
    rewrite test_early by exact Hearly. reflexivity.
  - intros Hwait Hnow Hex Hopen.
    rewrite test_overflow, test_elapsed, Hex, Hopen by lia. cbn.
    split; [reflexivity|].
    unfold lastSubmissionTime_of. cbn. rewrite sload_insert.
    case_decide; [reflexivity | congruence].
Qed.

Lemma request_gate (s : Storage) (env : Env) (id : uint256) (t1 : uint256) :
  msg_sender env = owner s ->
  paused s = false ->
  lastDecryptionRequestTime_of s (msg_sender env) = t1 ->
  (block_timestamp env < t1 + cooldownSeconds s ->
   transact env (RequestBatchDecryption id) s
   = (s, Reverted (cooldown_error (t1 + cooldownSeconds s))))
  /\ (t1 + cooldownSeconds s <= block_timestamp env ->
      block_timestamp env < UINT256_LIMIT ->
      exists_ (batch_of s id) = true ->
      closed (batch_of s id) = true ->
      succeeded (receipt env (RequestBatchDecryption id) s) = true
      /\ lastDecryptionRequestTime_of
           (next env (RequestBatchDecryption id) s) (msg_sender env)
         = block_timestamp env).
Proof.
  intros Hown Hrun Hlast.
  unfold receipt, next.
  rewrite transact_requestBatchDecryption. cbn.
  rewrite test_owner, Hrun, Hlast by exact Hown. cbn.
  unfold cooldown_error. split.
  - intros Hearly. destruct (UINT256_LIMIT <=? t1 + cooldownSeconds s);
      [reflexivity|].
    rewrite test_early by exact Hearly. reflexivity.
  - intros Hwait Hnow Hex Hcl.
    rewrite test_overflow, test_elapsed, Hex, Hcl by lia. cbn.
    split; [reflexivity|].
    unfold lastDecryptionRequestTime_of. cbn. rewrite sload_insert.
    case_decide; [reflexivity | congruence].
Qed.

(** C7 (as the code has it): let a gated call (a contribution, or a
    decryption request) by an actor succeed at time [t1], and let the same
    actor make the next call of that kind at time [t2], still holding the
    role and with the contract not paused.  If [t2 < t1 + cooldownSeconds]
    the second call reverts: with [CooldownActive] when
    [t1 + cooldownSeconds] fits in 256 bits, with the overflow panic
    otherwise.  If [t1 + cooldownSeconds <= t2] and the batch is in the
    state the call needs, the second call succeeds as well. *)
Theorem cooldown_between_calls (s0 s1 s : Storage) (env1 env2 : Env)
    (log1 : list Ev.Event) :
  msg_sender env2 = msg_sender env1 ->
  paused s = false ->
  let t1 := block_timestamp env1 in
  let t2 := block_timestamp env2 in
  (forall id1 v1 id2 v2,
     transact env1 (ContributeBandwidth id1 v1) s0 = (s1, Succeeded log1) ->
     lastSubmissionTime_of s (msg_sender env1)
     = lastSubmissionTime_of s1 (msg_sender env1) ->
     isProvider_of s (msg_sender env2) = true ->
     (t2 < t1 + cooldownSeconds s ->
      transact env2 (ContributeBandwidth id2 v2) s
      = (s, Reverted (cooldown_error (t1 + cooldownSeconds s))))
     /\ (t1 + cooldownSeconds s <= t2 -> t2 < UINT256_LIMIT ->
         exists_ (batch_of s id2) = true ->
         closed (batch_of s id2) = false ->
         succeeded (receipt env2 (ContributeBandwidth id2 v2) s) = true))
  /\ (forall id1 id2,
       transact env1 (RequestBatchDecryption id1) s0 = (s1, Succeeded log1) ->
       lastDecryptionRequestTime_of s (msg_sender env1)
       = lastDecryptionRequestTime_of s1 (msg_sender env1) ->
       msg_sender env2 = owner s ->
       (t2 < t1 + cooldownSeconds s ->
        transact env2 (RequestBatchDecryption id2) s
        = (s, Reverted (cooldown_error (t1 + cooldownSeconds s))))
       /\ (t1 + cooldownSeconds s <= t2 -> t2 < UINT256_LIMIT ->
           exists_ (batch_of s id2) = true ->
           closed (batch_of s id2) = true ->
           succeeded (receipt env2 (RequestBatchDecryption id2) s) = true)).
Proof.
  intros Hsame Hrun t1 t2. split.
  - intros id1 v1 id2 v2 Hfirst Hkept Hprov.
    destruct (contribute_records _ _ _ _ _ _ Hfirst) as [Hrec _].
    rewrite Hrec, <- Hsame in Hkept.
    destruct (contribute_gate s env2 id2 v2 t1 Hprov Hrun Hkept)
      as [Hearly Hlate].
    split; [exact Hearly|].
    intros Hwait Hnow Hex Hopen. apply Hlate; assumption.
  - intros id1 id2 Hfirst Hkept Hown.
    destruct (request_records _ _ _ _ _ Hfirst) as [Hrec _].
    rewrite Hrec, <- Hsame in Hkept.
    destruct (request_gate s env2 id2 t1 Hown Hrun Hkept) as [Hearly Hlate].
    split; [exact Hearly|].
    intros Hwait Hnow Hex Hcl. apply Hlate; assumption.
Qed.

(** ** Access control *)

Lemma owner_next (env : Env) (c : Call) (s : Storage) :
  owner (next env c s) = owner s.
Proof. by_cases c; repeat case_match; reflexivity. Qed.

Lemma test_not_owner (env : Env) (s : Storage) :
  msg_sender env <> owner s -> negb (msg_sender env =? owner s) = true.
Proof. intros Hne. apply N.eqb_neq in Hne. rewrite Hne. reflexivity. Qed.

(** X1: a call to any function that carries [onlyOwner], sent by anyone
    but the owner, reverts with [NotOwner]; and [NotOwner] is returned in
    no other situation. *)
Theorem only_owner_enforced (env : Env) (c : Call) (s : Storage) :
  (owner_only c = true -> msg_sender env <> owner s ->
   transact env c s = (s, Reverted NotOwner))
  /\ (receipt env c s = Reverted NotOwner ->
      owner_only c = true /\ msg_sender env <> owner s).
Proof.
  split.
  - intros Hkind Hne. pose proof (test_not_owner env s Hne) as Htest.
    destruct c; cbn in Hkind; try discriminate;
      [ rewrite transact_addProvider
      | rewrite transact_removeProvider
      | rewrite transact_pause
      | rewrite transact_unpause
      | rewrite transact_setCooldownSeconds
      | rewrite transact_openBatch
      | rewrite transact_closeBatch
      | rewrite transact_requestBatchDecryption ];
      cbn; rewrite Htest; reflexivity.
  - by_cases c; repeat case_match; cbn; intros Hrc; try discriminate;
      (split; [reflexivity|]);
      match goal with
      | E : negb (_ =? _) = true |- _ =>
          apply negb_true_iff, N.eqb_neq in E; exact E
      end.
Qed.

(** X2: the owner of a storage deployed by [deployer] is [deployer] after
    any run of transactions: no function writes [owner]. *)
Theorem owner_is_deployer (deployer : address) (c0 : coprocessor)
    (txs : list (Env * Call)) :
  owner (run txs (constructor deployer c0)) = deployer.
Proof.
  assert (Hrun : forall s, owner (run txs s) = owner s).
  { induction txs as [| [env c] rest IH]; intros s; cbn; [reflexivity|].
    rewrite IH. apply owner_next. }
  rewrite Hrun. reflexivity.
Qed.

(** X3: a transaction not sent by the owner leaves the configuration as it
    is: the pause flag, the cooldown window, the provider set, the times of
    decryption requests, and of every batch whether it exists and whether
    it is closed. *)
Theorem non_owner_leaves_configuration (env : Env) (c : Call) (s : Storage) :
  msg_sender env <> owner s ->
  paused (next env c s) = paused s
  /\ cooldownSeconds (next env c s) = cooldownSeconds s
  /\ isProvider (next env c s) = isProvider s
  /\ lastDecryptionRequestTime (next env c s) = lastDecryptionRequestTime s
  /\ forall id,
       exists_ (batch_of (next env c s) id) = exists_ (batch_of s id)
       /\ closed (batch_of (next env c s) id) = closed (batch_of s id).
Proof.
  intros Hne. pose proof (test_not_owner env s Hne) as Htest.
  by_cases c; rewrite ?Htest; cbn; repeat case_match; cbn;
    (split; [|split; [|split; [|split; [|intros id0; split]]]]);
    try reflexivity; try assumption;
    unfold batch_of; cbn; rewrite sload_insert;
    case_decide; subst; reflexivity.
Qed.

(** ** Providers and the pause switch *)

(** X4: the owner's [addProvider] and [removeProvider] set exactly the
    flag of the address they name; removing after adding leaves it unset,
    adding after removing leaves it set. *)
Theorem provider_membership (s : Storage) (env : Env) (p : address) :
  msg_sender env = owner s ->
  (forall a,
     isProvider_of (next env (AddProvider p) s) a
     = if decide (p = a) then true else isProvider_of s a)
  /\ (forall a,
       isProvider_of (next env (RemoveProvider p) s) a
       = if decide (p = a) then false else isProvider_of s a)
  /\ isProvider_of
       (next env (RemoveProvider p) (next env (AddProvider p) s)) p = false
  /\ isProvider_of
       (next env (AddProvider p) (next env (RemoveProvider p) s)) p = true.
Proof.
  intros Hown.
  assert (Hadd : forall s0 a, msg_sender env = owner s0 ->
            isProvider_of (next env (AddProvider p) s0) a
            = if decide (p = a) then true else isProvider_of s0 a).
  { intros s0 a Hown0. unfold next. rewrite transact_addProvider.
    rewrite test_owner by exact Hown0. apply sload_insert. }
  assert (Hrem : forall s0 a, msg_sender env = owner s0 ->
            isProvider_of (next env (RemoveProvider p) s0) a
            = if decide (p = a) then false else isProvider_of s0 a).
  { intros s0 a Hown0. unfold next. rewrite transact_removeProvider.
    rewrite test_owner by exact Hown0. apply sload_insert. }
  split; [|split; [|split]].
  - intros a. apply Hadd. exact Hown.
  - intros a. apply Hrem. exact Hown.
  - rewrite Hrem by (rewrite owner_next; exact Hown).
    case_decide; [reflexivity | congruence].
  - rewrite Hadd by (rewrite owner_next; exact Hown).
    case_decide; [reflexivity | congruence].
Qed.

(** X5: once the owner has removed a provider, every contribution that
    address sends reverts with [NotProvider], whatever the batch, the time
    and the pause flag. *)
Theorem removed_provider_rejected (s : Storage) (env env' : Env)
    (id : uint256) (v : euint32) :
  msg_sender env = owner s ->
  transact env' (ContributeBandwidth id v)
    (next env (RemoveProvider (msg_sender env')) s)
  = (next env (RemoveProvider (msg_sender env')) s, Reverted NotProvider).
Proof.
  intros Hown. rewrite transact_contributeBandwidth. cbn.
  destruct (provider_membership s env (msg_sender env') Hown)
    as [_ [Hrem _]].
  rewrite Hrem. case_decide; [reflexivity | congruence].
Qed.

(** X6: for the owner, [pause] followed by [unpause] gives back the
    storage it started from; [pause] on a paused contract reverts with
    [Paused]; [unpause] succeeds in either state and on an unpaused
    contract changes nothing. *)
Theorem pause_unpause (s : Storage) (env : Env) :
  msg_sender env = owner s ->
  (paused s = false ->
   paused (next env Pause s) = true
   /\ next env Unpause (next env Pause s) = s
   /\ next env Unpause s = s)
  /\ (paused s = true -> transact env Pause s = (s, Reverted Paused))
  /\ receipt env Unpause s = Succeeded [Ev.Unpaused (msg_sender env)]
  /\ paused (next env Unpause s) = false.
Proof.
  intros Hown. pose proof (test_owner env s Hown) as Htest.
  assert (Hun : forall s0, msg_sender env = owner s0 ->
            next env Unpause s0 = set_paused false s0).
  { intros s0 Hown0. unfold next. rewrite transact_unpause.
    rewrite test_owner by exact Hown0. reflexivity. }
  split; [|split; [|split]].
  - intros Hrun.
    assert (Hp : next env Pause s = set_paused true s).
    { unfold next. rewrite transact_pause, Htest, Hrun. reflexivity. }
    split; [|split].
    + rewrite Hp. reflexivity.
    + rewrite Hun by (rewrite owner_next; exact Hown). rewrite Hp.
      destruct s; cbn in *; subst; reflexivity.
    + rewrite Hun by exact Hown.
      destruct s; cbn in *; subst; reflexivity.
  - intros Hp. rewrite transact_pause, Htest, Hp. reflexivity.
  - unfold receipt. rewrite transact_unpause, Htest. reflexivity.
  - rewrite Hun by exact Hown. reflexivity.
Qed.

(** ** Batches, one at a time and over runs *)

(** X7: a transaction changes no batch other than the one it names:
    [openBatch], [closeBatch] and [contributeBandwidth] leave every other
    batch as it is, and the remaining functions leave every batch as it
    is. *)
Theorem batch_isolation (env : Env) (c : Call) (s : Storage)
    (id : uint256) :
  target_batch c <> Some id ->
  batch_of (next env c s) id = batch_of s id.
Proof.
  intros Hother.
  by_cases c; repeat case_match; cbn; try reflexivity;
    unfold batch_of; cbn; rewrite sload_insert;
    case_decide; subst; cbn in *; solve [reflexivity | congruence].
Qed.

(** X8: [closeBatch] by the owner of an unpaused contract reverts with
    [BatchClosedOrDoesNotExist] on a batch that is missing or already
    closed; on an open batch it sets the flag, keeps the accumulator,
    reports it in [BatchClosed], and a second [closeBatch] then reverts. *)
Theorem closeBatch_once (s : Storage) (env : Env) (id : uint256) :
  msg_sender env = owner s ->
  paused s = false ->
  (exists_ (batch_of s id) = false \/ closed (batch_of s id) = true ->
   transact env (CloseBatch id) s = (s, Reverted BatchClosedOrDoesNotExist))
  /\ (exists_ (batch_of s id) = true -> closed (batch_of s id) = false ->
      receipt env (CloseBatch id) s
      = Succeeded
          [Ev.BatchClosed id (totalEncryptedBandwidth (batch_of s id))]
      /\ batch_of (next env (CloseBatch id) s) id
         = mkBatch true true (totalEncryptedBandwidth (batch_of s id))
      /\ transact env (CloseBatch id) (next env (CloseBatch id) s)
         = (next env (CloseBatch id) s, Reverted BatchClosedOrDoesNotExist)).
Proof.
  intros Hown Hrun. pose proof (test_owner env s Hown) as Htest. split.
  - intros Hgone. rewrite transact_closeBatch, Htest, Hrun.
    destruct Hgone as [-> | Hcl]; [reflexivity|].
    rewrite Hcl. case_match; reflexivity.
  - intros Hex Hopen.
    assert (Hnext : batch_of (next env (CloseBatch id) s) id
                    = mkBatch true true
                        (totalEncryptedBandwidth (batch_of s id))).
    { unfold next. rewrite transact_closeBatch, Htest, Hrun, Hex, Hopen.
      cbn. unfold batch_of at 1. cbn. rewrite sload_insert.
      case_decide; [rewrite Hex; reflexivity | congruence]. }
    split; [|split].
    + unfold receipt.
      rewrite transact_closeBatch, Htest, Hrun, Hex, Hopen. reflexivity.
    + exact Hnext.
    + assert (Hrun' : paused (next env (CloseBatch id) s) = false).
      { unfold next. rewrite transact_closeBatch, Htest, Hrun, Hex, Hopen.
        cbn. exact Hrun. }
      rewrite transact_closeBatch.
      rewrite test_owner by (rewrite owner_next; exact Hown).
      rewrite Hrun', Hnext. reflexivity.
Qed.

(** X9: once a batch of a reachable storage is closed, its whole record --
    existence, flag and accumulator -- is the same after any run of
    transactions. *)
Theorem closed_batch_frozen (s : Storage) (id : uint256)
    (txs : list (Env * Call)) :
  reachable s ->
  closed (batch_of s id) = true ->
  batch_of (run txs s) id = batch_of s id.
Proof.
  revert s. induction txs as [| [env c] rest IH]; intros s Hreach Hcl; cbn.
  - reflexivity.
  - assert (Hstep : batch_of (next env c s) id = batch_of s id).
    { pose proof (closed_exists s id Hreach Hcl) as Hex.
      destruct (batch_of_next env c s id); congruence. }
    rewrite IH.
    + exact Hstep.
    + apply reachable_next. exact Hreach.
    + rewrite Hstep. exact Hcl.
Qed.

(** X10: two successful contributions to a batch leave it open with the
    accumulator [FHE.add(FHE.add(acc, v1), v2)], the library calls made in
    that order on the coprocessor. *)
Theorem contributions_accumulate (s s1 s2 : Storage) (env1 env2 : Env)
    (id : uint256) (v1 v2 : euint32) (log1 log2 : list Ev.Event) :
  transact env1 (ContributeBandwidth id v1) s = (s1, Succeeded log1) ->
  transact env2 (ContributeBandwidth id v2) s1 = (s2, Succeeded log2) ->
  let a1 := FHE_add (fhevm s) (totalEncryptedBandwidth (batch_of s id)) v1 in
  let a2 := FHE_add a1.2 a1.1 v2 in
  batch_of s2 id = mkBatch true false a2.1
  /\ fhevm s2 = a2.2
  /\ log1 = [Ev.BandwidthContributed (msg_sender env1) id v1]
  /\ log2 = [Ev.BandwidthContributed (msg_sender env2) id v2].
Proof.
  assert (Hone : forall s0 s0' env v log,
            transact env (ContributeBandwidth id v) s0 = (s0', Succeeded log) ->
            let a := FHE_add (fhevm s0)
                       (totalEncryptedBandwidth (batch_of s0 id)) v in
            batch_of s0' id = mkBatch true false a.1
            /\ fhevm s0' = a.2
            /\ log = [Ev.BandwidthContributed (msg_sender env) id v]).
  { intros s0 s0' env v log. rewrite transact_contributeBandwidth. cbn.
    intros Hrun. repeat case_match; simplify_eq.
    match goal with
    | E : negb ?e || ?c = false |- _ =>
        apply orb_false_iff in E; destruct E as [E1 E2];
        apply negb_false_iff in E1
    end.
    split; [|split]; try reflexivity.
    unfold batch_of at 1. cbn. rewrite sload_insert.
    case_decide; [|congruence]. rewrite E1, E2. reflexivity. }
  intros Hfirst Hsecond.
  destruct (Hone _ _ _ _ _ Hfirst) as [Hb1 [Hc1 Hl1]].
  destruct (Hone _ _ _ _ _ Hsecond) as [Hb2 [Hc2 Hl2]].
  cbn. rewrite Hb1, Hc1 in *. cbn in *. auto.
Qed.

(** X11: the two cooldown clocks are kept apart and per caller.  A
    transaction changes an address's submission time only if it is a
    successful [contributeBandwidth] sent by that address, and it then
    records [block.timestamp]; likewise the request time changes only by
    that address's successful [requestBatchDecryption]. *)
Theorem cooldown_clocks_isolated (env : Env) (c : Call) (s : Storage)
    (a : address) :
  (lastSubmissionTime_of (next env c s) a <> lastSubmissionTime_of s a ->
   (exists id v, c = ContributeBandwidth id v)
   /\ msg_sender env = a
   /\ succeeded (receipt env c s) = true
   /\ lastSubmissionTime_of (next env c s) a = block_timestamp env)
  /\ (lastDecryptionRequestTime_of (next env c s) a
      <> lastDecryptionRequestTime_of s a ->
      (exists id, c = RequestBatchDecryption id)
      /\ msg_sender env = a
      /\ succeeded (receipt env c s) = true
      /\ lastDecryptionRequestTime_of (next env c s) a = block_timestamp env).
Proof.
  unfold lastSubmissionTime_of, lastDecryptionRequestTime_of.
  by_cases c; repeat case_match; cbn; split; intros Hchg;
    try congruence;
    rewrite sload_insert in *; case_decide; subst; try congruence;
    eauto 6.
Qed.

(** X12: a successful [requestBatchDecryption] is made against a batch
    that exists and is closed, and stores under the id the oracle returns
    a pending context that names the batch and commits to its accumulator;
    a callback for that id that follows at once, with a proof the library
    accepts and a cleartext of at least 32 bytes, succeeds and publishes
    the decoded value for that batch. *)
Theorem request_then_callback (s s1 : Storage) (env env' : Env)
    (id : uint256) (log : list Ev.Event) (ct pf : bytes) (n : uint256) :
  transact env (RequestBatchDecryption id) s = (s1, Succeeded log) ->
  let cts := [totalEncryptedBandwidth (batch_of s id)] in
  let r := (FHE_requestDecryption (fhevm s) cts myCallback_selector).1 in
  exists_ (batch_of s id) = true
  /\ closed (batch_of s id) = true
  /\ log = [Ev.DecryptionRequested r id (_hashCiphertexts cts)]
  /\ context_of s1 r = mkDecryptionContext id (_hashCiphertexts cts) false
  /\ (FHE_checkSignatures (fhevm s1) r ct pf = true ->
      abi_decode_uint256 ct = Some n ->
      receipt env' (MyCallback r ct pf) s1
      = Succeeded [Ev.DecryptionCompleted r id n]).
Proof.
  rewrite transact_requestBatchDecryption. cbn. intros Hrun.
  repeat case_match; simplify_eq.
  match goal with
  | E : negb ?e || negb ?c = false |- _ =>
      apply orb_false_iff in E; destruct E as [E1 E2];
      apply negb_false_iff in E1; apply negb_false_iff in E2
  end.
  assert (Hctx : forall st,
            context_of
              (set_decryptionContexts
                 (<[(FHE_requestDecryption (fhevm s)
                       [totalEncryptedBandwidth (batch_of s id)]
                       myCallback_selector).1
                    := mkDecryptionContext id
                         (_hashCiphertexts
                            [totalEncryptedBandwidth (batch_of s id)])
                         false]> (decryptionContexts s)) st)
              (FHE_requestDecryption (fhevm s)
                 [totalEncryptedBandwidth (batch_of s id)]
                 myCallback_selector).1
            = mkDecryptionContext id
                (_hashCiphertexts [totalEncryptedBandwidth (batch_of s id)])
                false).
  { intros st. unfold context_of. cbn. rewrite sload_insert.
    case_decide; [reflexivity | congruence]. }
  split; [exact E1|]. split; [exact E2|]. split; [reflexivity|].
  split; [apply Hctx|].
  intros Hvalid Hdec. unfold receipt. rewrite transact_myCallback.
  cbn. rewrite Hctx. cbn.
  unfold currentStateHash. rewrite Hctx. cbn.
  change (batch_of (set_decryptionContexts _ _) id) with (batch_of s id).
  rewrite N.eqb_refl. cbn.
  cbn in Hvalid. rewrite Hvalid. cbn. rewrite Hdec. reflexivity.
Qed.

(** ** Stored requests *)

(** Where a stored context comes from: it was there before, or this
    transaction is the request that created it against a closed batch, or
    it is the callback that marked it processed. *)
Lemma contexts_next (env : Env) (c : Call) (s : Storage) (r : uint256)
    (ctx : DecryptionContext) :
  decryptionContexts (next env c s) !! r = Some ctx ->
  decryptionContexts s !! r = Some ctx
  \/ (exists id,
        c = RequestBatchDecryption id
        /\ exists_ (batch_of s id) = true
        /\ closed (batch_of s id) = true
        /\ ctx = mkDecryptionContext id
                  (_hashCiphertexts [totalEncryptedBandwidth (batch_of s id)])
                  false)
  \/ ((exists ct pf, c = MyCallback r ct pf)
      /\ ctx = mkDecryptionContext (batchId (context_of s r))
                 (stateHash (context_of s r)) true).
Proof.
  by_cases c; repeat case_match; cbn; intros Hlook; auto;
    rewrite lookup_insert in Hlook; case_decide; subst; auto;
    simplify_eq.
  - right. left. eexists. split; [reflexivity|].
    match goal with
    | E : negb ?e || negb ?c = false |- _ =>
        apply orb_false_iff in E; destruct E as [E1 E2];
        apply negb_false_iff in E1; apply negb_false_iff in E2
    end.
    auto.
  - right. right. eauto.
Qed.

(** The batch of a closed record is not touched by one transaction. *)
Lemma closed_batch_next (env : Env) (c : Call) (s : Storage) (id : uint256) :
  reachable s ->
  closed (batch_of s id) = true ->
  batch_of (next env c s) id = batch_of s id.
Proof.
  intros Hreach Hcl.
  pose proof (closed_exists s id Hreach Hcl) as Hex.
  destruct (batch_of_next env c s id); congruence.
Qed.

(** Every stored context either commits to the accumulator of a closed
    batch, or is the processed zero context left by a callback for an id
    that was never requested. *)
Lemma contexts_committed (s : Storage) (r : uint256)
    (ctx : DecryptionContext) :
  reachable s ->
  decryptionContexts s !! r = Some ctx ->
  (closed (batch_of s (batchId ctx)) = true
   /\ stateHash ctx
      = _hashCiphertexts
          [totalEncryptedBandwidth (batch_of s (batchId ctx))])
  \/ processed ctx = true.
Proof.
  intros Hreach. revert r ctx.
  induction Hreach as [deployer c0 | env c s Hreach IH]; intros r ctx Hlook.
  - cbn in Hlook. rewrite lookup_empty in Hlook. discriminate.
  - destruct (contexts_next env c s r ctx Hlook)
      as [Hold | [[id [-> [Hex [Hcl ->]]]] | [_ ->]]].
    + destruct (IH r ctx Hold) as [[Hcl Hhash] | Hdone]; [|auto].
      left. rewrite (closed_batch_next env c s _ Hreach Hcl). auto.
    + left. cbn.
      rewrite (closed_batch_next env _ s id Hreach Hcl). auto.
    + right. reflexivity.
Qed.

(** X13: in a reachable storage a stored request that is still pending
    names a closed batch and its commitment equals the digest of that
    batch's accumulator now; so a callback for it is never turned away
    with [StateMismatch] or [ReplayAttempt]. *)
Theorem pending_commitment_matches (s : Storage) (r : uint256)
    (ctx : DecryptionContext) :
  reachable s ->
  decryptionContexts s !! r = Some ctx ->
  processed ctx = false ->
  closed (batch_of s (batchId ctx)) = true
  /\ currentStateHash s r = stateHash ctx
  /\ forall env ct pf,
       receipt env (MyCallback r ct pf) s <> Reverted StateMismatch
       /\ receipt env (MyCallback r ct pf) s <> Reverted ReplayAttempt.
Proof.
  intros Hreach Hlook Hpending.
  assert (Hctx : context_of s r = ctx).
  { unfold context_of, sload. rewrite Hlook. reflexivity. }
  destruct (contexts_committed s r ctx Hreach Hlook) as [[Hcl Hhash] | Hdone];
    [|congruence].
  assert (Hcur : currentStateHash s r = stateHash ctx).
  { unfold currentStateHash. rewrite Hctx. symmetry. exact Hhash. }
  split; [exact Hcl|]. split; [exact Hcur|].
  intros env ct pf. unfold receipt. rewrite transact_myCallback. cbn.
  rewrite Hctx, Hpending, Hcur, N.eqb_refl. cbn.
  repeat case_match; cbn; split; discriminate.
Qed.

(** [abi.decode] reads a number below [2^256]. *)
Lemma be_uint_split (bs : bytes) (acc : N) :
  be_uint bs acc = acc * 256 ^ N.of_nat (length bs) + be_uint bs 0
  /\ be_uint bs 0 < 256 ^ N.of_nat (length bs).
Proof.
  revert acc. induction bs as [| b rest IH]; intros acc.
  - cbn. split; lia.
  - cbn [be_uint length].
    destruct (IH (acc * 256 + Byte.to_N b)) as [Ha _].
    destruct (IH (0 * 256 + Byte.to_N b)) as [Hb Hlt].
    pose proof (Byte.to_N_bounded b) as Hbyte.
    rewrite Nat2N.inj_succ, N.pow_succ_r'.
    rewrite Ha, Hb. split; nia.
Qed.

Lemma abi_decode_uint256_range (data : bytes) (n : uint256) :
  abi_decode_uint256 data = Some n -> n < UINT256_LIMIT.
Proof.
  unfold abi_decode_uint256.
  destruct (length data <? 32)%nat eqn:Hlen; [discriminate|].
  intros Hsome. simplify_eq.
  apply Nat.ltb_ge in Hlen.
  destruct (be_uint_split (take 32 data) 0) as [_ Hlt].
  rewrite length_take, Nat.min_l in Hlt by exact Hlen.
  exact Hlt.
Qed.

(** X14: a callback that succeeds had a proof [FHE.checkSignatures]
    accepted and a commitment that matched; it publishes one
    [DecryptionCompleted] whose value is the cleartext's first 32 bytes,
    below [2^256]; and all it changes in storage is the processed flag of
    its own request. *)
Theorem myCallback_effect (s s1 : Storage) (env : Env) (r : uint256)
    (ct pf : bytes) (log : list Ev.Event) :
  transact env (MyCallback r ct pf) s = (s1, Succeeded log) ->
  FHE_checkSignatures (fhevm s) r ct pf = true
  /\ currentStateHash s r = stateHash (context_of s r)
  /\ (exists n,
        abi_decode_uint256 ct = Some n /\ n < UINT256_LIMIT
        /\ log = [Ev.DecryptionCompleted r (batchId (context_of s r)) n])
  /\ context_of s1 r
     = mkDecryptionContext (batchId (context_of s r))
         (stateHash (context_of s r)) true
  /\ (forall r', r' <> r -> context_of s1 r' = context_of s r')
  /\ s1 = set_decryptionContexts (decryptionContexts s1) s.
Proof.
  rewrite transact_myCallback. cbn. intros Hrun.
  repeat case_match; simplify_eq.
  repeat match goal with
         | E : negb _ = false |- _ => apply negb_false_iff in E
         end.
  split; [assumption|]. split; [apply N.eqb_eq; assumption|].
  split.
  { eexists. split; [reflexivity|]. split; [|reflexivity].
    eapply abi_decode_uint256_range. eassumption. }
  split.
  { unfold context_of at 1. cbn. rewrite sload_insert.
    case_decide; [reflexivity | congruence]. }
  split; [|reflexivity].
  intros r' Hne. unfold context_of at 1. cbn. rewrite sload_insert.
  case_decide; [congruence | reflexivity].
Qed.

(** X15: a transaction that succeeds emits exactly one event. *)
Theorem one_event_per_success (env : Env) (c : Call) (s : Storage)
    (log : list Ev.Event) :
  receipt env c s = Succeeded log -> length log = 1%nat.
Proof.
  by_cases c; repeat case_match; cbn; intros Hrc; simplify_eq; reflexivity.
Qed.

(** ** Number ranges *)

Lemma range_next (env : Env) (c : Call) (s : Storage) :
  well_typed (env, c) ->
  (cooldownSeconds s < UINT256_LIMIT
   /\ forall a, lastSubmissionTime_of s a < UINT256_LIMIT
               /\ lastDecryptionRequestTime_of s a < UINT256_LIMIT) ->
  cooldownSeconds (next env c s) < UINT256_LIMIT
  /\ forall a, lastSubmissionTime_of (next env c s) a < UINT256_LIMIT
              /\ lastDecryptionRequestTime_of (next env c s) a
                 < UINT256_LIMIT.
Proof.
  intros [Hnow Harg] [Hcd Htimes]. cbn in Hnow, Harg.
  unfold lastSubmissionTime_of, lastDecryptionRequestTime_of in *.
  by_cases c; repeat case_match; cbn; (split; [assumption|]);
    intros a; destruct (Htimes a) as [Hsub Hreq];
    (split; [try exact Hsub | try exact Hreq]);
    rewrite sload_insert; case_decide; assumption.
Qed.

(** X16: when every transaction carries a [block.timestamp] in range and
    [setCooldownSeconds] an argument in range, the cooldown window and
    every recorded time stay below [2^256] (and the window above zero)
    along any run from deployment. *)
Theorem stored_numbers_in_range (deployer : address) (c0 : coprocessor)
    (txs : list (Env * Call)) :
  Forall well_typed txs ->
  0 < cooldownSeconds (run txs (constructor deployer c0))
  /\ cooldownSeconds (run txs (constructor deployer c0)) < UINT256_LIMIT
  /\ forall a,
       lastSubmissionTime_of (run txs (constructor deployer c0)) a
       < UINT256_LIMIT
       /\ lastDecryptionRequestTime_of (run txs (constructor deployer c0)) a
          < UINT256_LIMIT.
Proof.
  intros Htyped. split.
  - apply cooldownSeconds_positive, reachable_run, reachable_deployed.
  - assert (Hstart : cooldownSeconds (constructor deployer c0) < UINT256_LIMIT
              /\ forall a,
                   lastSubmissionTime_of (constructor deployer c0) a
                   < UINT256_LIMIT
                   /\ lastDecryptionRequestTime_of (constructor deployer c0) a
                      < UINT256_LIMIT).
    { cbn. split; [reflexivity|]. intros a. split; reflexivity. }
    revert Hstart. generalize (constructor deployer c0).
    induction Htyped as [| [env c] rest Hhead _ IH]; intros s Hinv; cbn.
    + exact Hinv.
    + apply IH. apply range_next; assumption.
Qed.

End Properties.

(** ** The properties on the scenario *)

Lemma callback_at_most_once_witness :
  (callback_successes demo_this demo_selector 0
     ((mkEnv 999 130, MyCallback 0 cleartext25 cleartext25) :: demo_later)
     demo_requested <= 1)%nat
  /\ transact demo_this demo_selector (mkEnv 2 300)
       (MyCallback 0 cleartext25 cleartext25)
       (run demo_this demo_selector demo_later demo_processed)
     = (run demo_this demo_selector demo_later demo_processed,
        Reverted ReplayAttempt).
Proof.
  split.
  - apply (proj1 (callback_at_most_once demo_this demo_selector 0)).
    vm_compute. repeat split.
  - apply (proj2 (callback_at_most_once demo_this demo_selector 0)
             demo_requested demo_processed (mkEnv 999 130)
             cleartext25 cleartext25 [Ev.DecryptionCompleted 0 7 25]
             demo_later).
    + vm_compute. reflexivity.
    + vm_compute. repeat split.
Defined.

Lemma myCallback_state_mismatch_witness :
  transact demo_this demo_selector (mkEnv 999 130)
    (MyCallback 0 cleartext25 cleartext25) demo_tampered
  = (demo_tampered, Reverted StateMismatch).
Proof.
  apply (myCallback_state_mismatch demo_this demo_selector demo_tampered
           (mkEnv 999 130) 0 cleartext25 cleartext25).
  - vm_compute. reflexivity.
  - vm_compute. discriminate.
Defined.

(** C3, refuted as stated: request id 42 was never stored, and the
    callback for it reverts with [StateMismatch], not [ReplayAttempt]. *)
Lemma unknown_request_is_state_mismatch :
  decryptionContexts demo_deployed !! 42 = None
  /\ receipt demo_this demo_selector (mkEnv 999 130)
       (MyCallback 42 cleartext25 cleartext25) demo_deployed
     = Reverted StateMismatch
  /\ receipt demo_this demo_selector (mkEnv 999 130)
       (MyCallback 42 cleartext25 cleartext25) demo_deployed
     <> Reverted ReplayAttempt.
Proof.
  split; [reflexivity|]. split; vm_compute; [reflexivity | discriminate].
Qed.

Lemma myCallback_unknown_request_witness :
  receipt demo_this demo_selector (mkEnv 999 130)
    (MyCallback 42 cleartext25 cleartext25) demo_requested
  <> Reverted ReplayAttempt
  /\ transact demo_this demo_selector (mkEnv 999 130)
       (MyCallback 42 cleartext25 cleartext25) demo_requested
     = (demo_requested, Reverted StateMismatch).
Proof.
  destruct (myCallback_unknown_request demo_this demo_selector
              demo_requested (mkEnv 999 130) 42 cleartext25 cleartext25)
    as [Hnot Hmis].
  - vm_compute. reflexivity.
  - split; [exact Hnot|]. apply Hmis. vm_compute. discriminate.
Defined.

(** C4, refuted as stated: accounts 999 and 1000, neither the owner nor a
    provider nor anything the contract knows, each deliver the callback
    for request 0 successfully. *)
Lemma callback_from_arbitrary_caller :
  owner demo_requested = 1
  /\ isProvider_of demo_requested 999 = false
  /\ receipt demo_this demo_selector (mkEnv 999 130)
       (MyCallback 0 cleartext25 cleartext25) demo_requested
     = Succeeded [Ev.DecryptionCompleted 0 7 25]
  /\ receipt demo_this demo_selector (mkEnv 1000 130)
       (MyCallback 0 cleartext25 cleartext25) demo_requested
     = Succeeded [Ev.DecryptionCompleted 0 7 25]
  /\ processed (context_of demo_processed 0) = true.
Proof.
  repeat split; vm_compute; reflexivity.
Qed.

Lemma myCallback_any_caller_witness :
  transact demo_this demo_selector (mkEnv 999 130)
    (MyCallback 0 cleartext25 cleartext25) demo_requested
  = transact demo_this demo_selector (mkEnv 1 130)
      (MyCallback 0 cleartext25 cleartext25) demo_requested
  /\ exists e,
       transact demo_this demo_selector (mkEnv 999 130)
         (MyCallback 0 cleartext25 []) demo_requested
       = (demo_requested, Reverted e).
Proof.
  split.
  - apply (myCallback_any_caller demo_this demo_selector demo_requested
             (mkEnv 999 130) (mkEnv 1 130) 0 cleartext25 cleartext25).
  - apply (proj2 (myCallback_any_caller demo_this demo_selector
                    demo_requested (mkEnv 999 130) (mkEnv 1 130) 0
                    cleartext25 [])).
    vm_compute. reflexivity.
Defined.

(** C5, refuted as stated: provider 2 contributed at time 100, the batch
    was closed at 110, and provider 2's contribution at 120 is turned away
    by the cooldown check, which comes before the batch check. *)
Lemma contribute_closed_batch_cooldown :
  closed (batch_of demo_closed 7) = true
  /\ transact demo_this demo_selector (mkEnv 2 120)
       (ContributeBandwidth 7 5) demo_closed
     = (demo_closed, Reverted CooldownActive)
  /\ receipt demo_this demo_selector (mkEnv 2 120)
       (ContributeBandwidth 7 5) demo_closed
     <> Reverted BatchClosedOrDoesNotExist.
Proof.
  split; [|split]; vm_compute; solve [reflexivity | discriminate].
Qed.

Lemma contribute_unavailable_batch_witness :
  (exists e,
     transact demo_this demo_selector (mkEnv 2 120)
       (ContributeBandwidth 7 5) demo_closed
     = (demo_closed, Reverted e))
  /\ transact demo_this demo_selector (mkEnv 2 160)
       (ContributeBandwidth 7 5) demo_closed
     = (demo_closed, Reverted BatchClosedOrDoesNotExist).
Proof.
  split.
  - apply (contribute_unavailable_batch demo_this demo_selector demo_closed
             (mkEnv 2 120) 7 5).
    right. vm_compute. reflexivity.
  - apply (proj2 (contribute_unavailable_batch demo_this demo_selector
                    demo_closed (mkEnv 2 160) 7 5
                    (or_intror eq_refl))).
    + vm_compute. reflexivity.
    + vm_compute. reflexivity.
    + vm_compute. discriminate.
    + vm_compute. reflexivity.
Defined.

Lemma demo_closed_reachable : reachable demo_this demo_selector demo_closed.
Proof.
  unfold demo_closed, demo_open, demo_first, demo_ready.
  repeat apply reachable_next. apply reachable_deployed.
Qed.

Lemma batch_invariants_witness :
  exists_ (batch_of (next demo_this demo_selector (mkEnv 1 300)
                       (OpenBatch 7) demo_closed) 7) = true
  /\ transact demo_this demo_selector (mkEnv 1 300) (OpenBatch 7) demo_closed
     = (demo_closed, Reverted InvalidParameter)
  /\ closed (batch_of (next demo_this demo_selector (mkEnv 1 300)
                         (OpenBatch 7) demo_closed) 7) = true
  /\ totalEncryptedBandwidth
       (batch_of (next demo_this demo_selector (mkEnv 2 300)
                    (ContributeBandwidth 7 5) demo_closed) 7)
     = totalEncryptedBandwidth (batch_of demo_closed 7).
Proof.
  destruct (batch_invariants demo_this demo_selector demo_closed
              (mkEnv 1 300) (OpenBatch 7) 7 demo_closed_reachable)
    as [Hex [Hcl _]].
  destruct (batch_invariants demo_this demo_selector demo_closed
              (mkEnv 2 300) (ContributeBandwidth 7 5) 7
              demo_closed_reachable)
    as [_ [_ Hacc]].
  assert (Hexists : exists_ (batch_of demo_closed 7) = true)
    by (vm_compute; reflexivity).
  destruct (Hex Hexists) as [Hkept [_ Hinv]].
  refine (conj _ (conj _ (conj _ _))).
  - exact Hkept.
  - apply Hinv; vm_compute; reflexivity.
  - apply Hcl. vm_compute. reflexivity.
  - apply Hacc. vm_compute. reflexivity.
Defined.

(** C7, refuted as stated: provider 2 contributed at time 100; at 105 the
    owner set the window to [2^256 - 1]; provider 2's next contribution,
    at 106 and so well inside the window, reverts with the arithmetic
    panic of [lastSubmissionTime + cooldownSeconds], not with
    [CooldownActive]. *)
Lemma cooldown_overflow_panics :
  receipt demo_this demo_selector (mkEnv 2 100) (ContributeBandwidth 7 11)
    demo_ready
  = Succeeded [Ev.BandwidthContributed 2 7 11]
  /\ lastSubmissionTime_of demo_widened 2 = 100
  /\ isProvider_of demo_widened 2 = true
  /\ paused demo_widened = false
  /\ 106 - 100 < cooldownSeconds demo_widened
  /\ transact demo_this demo_selector (mkEnv 2 106)
       (ContributeBandwidth 7 5) demo_widened
     = (demo_widened, Reverted (Panic 17))
  /\ receipt demo_this demo_selector (mkEnv 2 106)
       (ContributeBandwidth 7 5) demo_widened
     <> Reverted CooldownActive.
Proof.
  repeat split; vm_compute; solve [reflexivity | discriminate].
Qed.

Lemma cooldown_between_calls_witness :
  transact demo_this demo_selector (mkEnv 2 130) (ContributeBandwidth 7 5)
    demo_first
  = (demo_first, Reverted CooldownActive)
  /\ succeeded (receipt demo_this demo_selector (mkEnv 2 160)
                  (ContributeBandwidth 7 5) demo_first) = true
  /\ transact demo_this demo_selector (mkEnv 2 106) (ContributeBandwidth 7 5)
       demo_widened
     = (demo_widened, Reverted (Panic 17))
  /\ transact demo_this demo_selector (mkEnv 1 150)
       (RequestBatchDecryption 7) demo_requested
     = (demo_requested, Reverted CooldownActive)
  /\ succeeded (receipt demo_this demo_selector (mkEnv 1 180)
                  (RequestBatchDecryption 7) demo_requested) = true.
Proof.
  refine (conj _ (conj _ (conj _ (conj _ _)))).
  - apply (proj1 (cooldown_between_calls demo_this demo_selector
                    demo_ready demo_first demo_first
                    (mkEnv 2 100) (mkEnv 2 130)
                    [Ev.BandwidthContributed 2 7 11] eq_refl eq_refl)
             7 11 7 5);
      vm_compute; reflexivity.
  - apply (proj1 (cooldown_between_calls demo_this demo_selector
                    demo_ready demo_first demo_first
                    (mkEnv 2 100) (mkEnv 2 160)
                    [Ev.BandwidthContributed 2 7 11] eq_refl eq_refl)
             7 11 7 5);
      vm_compute; solve [reflexivity | discriminate].
  - apply (proj1 (cooldown_between_calls demo_this demo_selector
                    demo_ready demo_first demo_widened
                    (mkEnv 2 100) (mkEnv 2 106)
                    [Ev.BandwidthContributed 2 7 11] eq_refl eq_refl)
             7 11 7 5);
      vm_compute; reflexivity.
  - apply (proj2 (cooldown_between_calls demo_this demo_selector
                    demo_closed demo_requested demo_requested
                    (mkEnv 1 120) (mkEnv 1 150)
                    [Ev.DecryptionRequested 0 7 4096012316]
                    eq_refl eq_refl)
             7 7);
      vm_compute; reflexivity.
  - apply (proj2 (cooldown_between_calls demo_this demo_selector
                    demo_closed demo_requested demo_requested
                    (mkEnv 1 120) (mkEnv 1 180)
                    [Ev.DecryptionRequested 0 7 4096012316]
                    eq_refl eq_refl)
             7 7);
      vm_compute; solve [reflexivity | discriminate].
Defined.

Lemma setCooldownSeconds_zero_witness :
  transact demo_this demo_selector (mkEnv 1 300) (SetCooldownSeconds 0)
    demo_closed
  = (demo_closed, Reverted InvalidParameter)
  /\ 0 < cooldownSeconds demo_closed
  /\ 0 < cooldownSeconds (next demo_this demo_selector (mkEnv 1 300)
                            (SetCooldownSeconds 5) demo_closed).
Proof.
  destruct (setCooldownSeconds_zero demo_this demo_selector demo_closed
              (mkEnv 1 300)) as [Hzero [_ Hpos]].
  destruct (Hpos demo_closed_reachable) as [Hnow Hnext].
  refine (conj _ (conj _ _)).
  - apply Hzero. vm_compute. reflexivity.
  - exact Hnow.
  - apply Hnext.
Defined.

Lemma paused_owner_operations_witness :
  transact demo_this demo_selector (mkEnv 1 60) (AddProvider 4) demo_paused
  = (set_isProvider (<[4 := true]> (isProvider demo_paused)) demo_paused,
     Succeeded [Ev.ProviderAdded 4])
  /\ transact demo_this demo_selector (mkEnv 1 60) Unpause demo_paused
     = (set_paused false demo_paused, Succeeded [Ev.Unpaused 1])
  /\ transact demo_this demo_selector (mkEnv 1 60) (OpenBatch 8) demo_paused
     = (demo_paused, Reverted Paused)
  /\ transact demo_this demo_selector (mkEnv 2 100)
       (ContributeBandwidth 7 11) demo_paused
     = (demo_paused, Reverted Paused).
Proof.
  pose proof (paused_owner_operations demo_this demo_selector demo_paused
                (mkEnv 1 60) eq_refl eq_refl) as Hall.
  refine (conj _ (conj _ (conj _ _))).
  - apply Hall.
  - apply Hall.
  - apply Hall.
  - apply Hall. vm_compute. reflexivity.
Defined.

Lemma first_call_cooldown_witness :
  transact demo_this demo_selector (mkEnv 2 30) (ContributeBandwidth 7 11)
    demo_ready
  = (demo_ready, Reverted CooldownActive)
  /\ transact demo_this demo_selector (mkEnv 1 30) (RequestBatchDecryption 7)
       demo_ready
     = (demo_ready, Reverted CooldownActive).
Proof.
  split.
  - apply (proj1 (first_call_cooldown demo_this demo_selector demo_ready
                    (mkEnv 2 30) eq_refl eq_refl eq_refl) 7 11);
      vm_compute; reflexivity.
  - apply (proj2 (first_call_cooldown demo_this demo_selector demo_ready
                    (mkEnv 1 30) eq_refl eq_refl eq_refl) 7);
      vm_compute; reflexivity.
Defined.

(** ** The further properties on the scenario *)

Lemma only_owner_enforced_witness :
  transact demo_this demo_selector (mkEnv 2 300) (CloseBatch 7) demo_open
  = (demo_open, Reverted NotOwner).
Proof.
  apply (proj1 (only_owner_enforced demo_this demo_selector (mkEnv 2 300)
                  (CloseBatch 7) demo_open)).
  - reflexivity.
  - vm_compute. discriminate.
Defined.

Lemma non_owner_leaves_configuration_witness :
  paused (next demo_this demo_selector (mkEnv 2 100)
            (ContributeBandwidth 7 11) demo_ready) = paused demo_ready
  /\ cooldownSeconds (next demo_this demo_selector (mkEnv 2 100)
                       (ContributeBandwidth 7 11) demo_ready)
     = cooldownSeconds demo_ready.
Proof.
  destruct (non_owner_leaves_configuration demo_this demo_selector
              (mkEnv 2 100) (ContributeBandwidth 7 11) demo_ready)
    as [Hp [Hcd _]].
  - vm_compute. discriminate.
  - exact (conj Hp Hcd).
Defined.

Lemma provider_membership_witness :
  isProvider_of (next demo_this demo_selector (mkEnv 1 300)
                   (RemoveProvider 2) demo_open) 2 = false
  /\ isProvider_of (next demo_this demo_selector (mkEnv 1 300)
                      (RemoveProvider 2) demo_open) 3 = true.
Proof.
  destruct (provider_membership demo_this demo_selector demo_open
              (mkEnv 1 300) 2 eq_refl) as [_ [Hrem _]].
  split.
  - rewrite Hrem. reflexivity.
  - rewrite Hrem. vm_compute. reflexivity.
Defined.

Lemma removed_provider_rejected_witness :
  transact demo_this demo_selector (mkEnv 2 300) (ContributeBandwidth 7 5)
    (next demo_this demo_selector (mkEnv 1 200) (RemoveProvider 2) demo_open)
  = (next demo_this demo_selector (mkEnv 1 200) (RemoveProvider 2) demo_open,
     Reverted NotProvider).
Proof.
  apply (removed_provider_rejected demo_this demo_selector demo_open
           (mkEnv 1 200) (mkEnv 2 300) 7 5).
  vm_compute. reflexivity.
Defined.

Lemma pause_unpause_witness :
  next demo_this demo_selector (mkEnv 1 50) Unpause demo_paused = demo_ready
  /\ transact demo_this demo_selector (mkEnv 1 51) Pause demo_paused
     = (demo_paused, Reverted Paused).
Proof.
  split.
  - apply (proj1 (pause_unpause demo_this demo_selector demo_ready
                    (mkEnv 1 50) eq_refl)).
    vm_compute. reflexivity.
  - apply (proj2 (pause_unpause demo_this demo_selector demo_paused
                    (mkEnv 1 51) eq_refl)).
    vm_compute. reflexivity.
Defined.

Lemma batch_isolation_witness :
  batch_of (next demo_this demo_selector (mkEnv 1 300) (OpenBatch 8)
              demo_open) 7
  = batch_of demo_open 7.
Proof.
  apply (batch_isolation demo_this demo_selector (mkEnv 1 300) (OpenBatch 8)
           demo_open 7).
  cbn. discriminate.
Defined.

Lemma closeBatch_once_witness :
  receipt demo_this demo_selector (mkEnv 1 110) (CloseBatch 7) demo_open
  = Succeeded [Ev.BatchClosed 7 26]
  /\ transact demo_this demo_selector (mkEnv 1 110) (CloseBatch 7) demo_closed
     = (demo_closed, Reverted BatchClosedOrDoesNotExist)
  /\ transact demo_this demo_selector (mkEnv 1 110) (CloseBatch 8) demo_open
     = (demo_open, Reverted BatchClosedOrDoesNotExist).
Proof.
  destruct (closeBatch_once demo_this demo_selector demo_open (mkEnv 1 110) 7
              eq_refl eq_refl) as [_ Hopen].
  destruct Hopen as [Hrc [_ Hagain]];
    [vm_compute; reflexivity | vm_compute; reflexivity |].
  refine (conj _ (conj _ _)).
  - exact Hrc.
  - exact Hagain.
  - apply (proj1 (closeBatch_once demo_this demo_selector demo_open
                    (mkEnv 1 110) 8 eq_refl eq_refl)).
    left. vm_compute. reflexivity.
Defined.

Lemma closed_batch_frozen_witness :
  batch_of (run demo_this demo_selector
              ((mkEnv 2 300, ContributeBandwidth 7 5)
                 :: (mkEnv 1 301, OpenBatch 7) :: demo_later)
              demo_closed) 7
  = batch_of demo_closed 7.
Proof.
  apply (closed_batch_frozen demo_this demo_selector demo_closed 7).
  - exact demo_closed_reachable.
  - vm_compute. reflexivity.
Defined.

Lemma contributions_accumulate_witness :
  batch_of demo_open 7 = mkBatch true false 26.
Proof.
  apply (contributions_accumulate demo_this demo_selector
           demo_ready demo_first demo_open (mkEnv 2 100) (mkEnv 3 101)
           7 11 16
           [Ev.BandwidthContributed 2 7 11] [Ev.BandwidthContributed 3 7 16]).
  - vm_compute. reflexivity.
  - vm_compute. reflexivity.
Defined.

Lemma cooldown_clocks_isolated_witness :
  msg_sender (mkEnv 2 100) = 2
  /\ lastSubmissionTime_of demo_first 2 = 100.
Proof.
  destruct (proj1 (cooldown_clocks_isolated demo_this demo_selector
                     (mkEnv 2 100) (ContributeBandwidth 7 11) demo_ready 2))
    as [_ [Hwho [_ Hwhen]]].
  - vm_compute. discriminate.
  - exact (conj Hwho Hwhen).
Defined.

Lemma request_then_callback_witness :
  context_of demo_requested 0 = mkDecryptionContext 7 4096012316 false
  /\ receipt demo_this demo_selector (mkEnv 999 130)
       (MyCallback 0 cleartext25 cleartext25) demo_requested
     = Succeeded [Ev.DecryptionCompleted 0 7 25].
Proof.
  destruct (request_then_callback demo_this demo_selector
              demo_closed demo_requested (mkEnv 1 120) (mkEnv 999 130) 7
              [Ev.DecryptionRequested 0 7 4096012316]
              cleartext25 cleartext25 25)
    as [_ [_ [_ [Hctx Hcb]]]].
  - vm_compute. reflexivity.
  - split.
    + exact Hctx.
    + apply Hcb; vm_compute; reflexivity.
Defined.

Lemma demo_requested_reachable :
  reachable demo_this demo_selector demo_requested.
Proof.
  unfold demo_requested. apply reachable_next. exact demo_closed_reachable.
Qed.

Lemma pending_commitment_matches_witness :
  closed (batch_of demo_requested 7) = true
  /\ currentStateHash demo_this demo_requested 0 = 4096012316.
Proof.
  destruct (pending_commitment_matches demo_this demo_selector
              demo_requested 0 (mkDecryptionContext 7 4096012316 false)
              demo_requested_reachable)
    as [Hcl [Hcur _]].
  - vm_compute. reflexivity.
  - reflexivity.
  - exact (conj Hcl Hcur).
Defined.

Lemma myCallback_effect_witness :
  FHE_checkSignatures (fhevm demo_requested) 0 cleartext25 cleartext25 = true
  /\ context_of demo_processed 0 = mkDecryptionContext 7 4096012316 true.
Proof.
  destruct (myCallback_effect demo_this demo_selector
              demo_requested demo_processed (mkEnv 999 130) 0
              cleartext25 cleartext25 [Ev.DecryptionCompleted 0 7 25])
    as [Hvalid [_ [_ [Hctx _]]]].
  - vm_compute. reflexivity.
  - split.
    + exact Hvalid.
    + rewrite Hctx. vm_compute. reflexivity.
Defined.

Lemma one_event_per_success_witness :
  length [Ev.BatchClosed 7 26] = 1%nat.
Proof.
  apply (one_event_per_success demo_this demo_selector (mkEnv 1 110)
           (CloseBatch 7) demo_open).
  vm_compute. reflexivity.
Defined.

Lemma stored_numbers_in_range_witness :
  0 < cooldownSeconds demo_ready
  /\ cooldownSeconds demo_ready < UINT256_LIMIT.
Proof.
  destruct (@stored_numbers_in_range demoFHEVM demo_this demo_selector 1 0
              demo_setup)
    as [Hpos [Hlt _]].
  - unfold demo_setup.
    constructor; [split; [reflexivity | exact I]|].
    constructor; [split; [reflexivity | exact I]|].
    constructor; [split; [reflexivity | exact I]|].
    constructor.
  - exact (conj Hpos Hlt).
Defined.
